(** * Verification of [automation/auto-remediate.py]

    A shallow embedding of the automated security remediation script:
    the finding loader, the severity categorizer, the pull-request body
    generator and the top-level workflow [main], followed by the
    properties of the specification that concern them.

    Conventions of the embedding:
    - a Python [str] is a list of Unicode code points ([pystr]);
    - a value produced by [json.load] is a [json]; a Python [dict] read
      from JSON is an association list with pairwise distinct keys, in
      insertion order;
    - the four-bucket dictionary of the categorizer is a [gmap];
    - code that can raise returns an [outcome]; code that talks to the
      file system or starts a process runs in the monad [M], which
      threads the list of commands issued so far and asks a [World] for
      the result of every external action;
    - writes to standard output ([print]) are not modelled. *)

From Stdlib Require Import ZArith NArith String Ascii List Lia.
From Stdlib Require Import Floats.SpecFloat.
From stdpp Require Import base option list gmap.

Local Open Scope N_scope.

(** ** Python strings *)

(** A Python string: a sequence of code points. *)
Definition pystr := list N.

(** The source file is UTF-8 text; [utf8_go] reads the bytes of a literal
    as the code points the Python parser sees. [need] is the number of
    continuation bytes still expected, [acc] the bits gathered so far. *)
Fixpoint utf8_go (s : string) (need : nat) (acc : N) : pystr :=
  match s with
  | EmptyString => []
  | String a rest =>
      let b := N_of_ascii a in
      match need with
      | O =>
          if b <? 128 then b :: utf8_go rest 0 0
          else if b <? 224 then utf8_go rest 1 (b - 192)
          else if b <? 240 then utf8_go rest 2 (b - 224)
          else utf8_go rest 3 (b - 240)
      | S n =>
          let acc' := acc * 64 + (b - 128) in
          match n with
          | O => acc' :: utf8_go rest 0 0
          | S _ => utf8_go rest n acc'
          end
      end
  end.

(** [U "text"] is the Python literal ['text']. *)
Definition U (s : string) : pystr := utf8_go s 0 0.

Definition pystr_eqb (a b : pystr) : bool := bool_decide (a = b).

(** [s.endswith(suffix)] *)
Definition endswith (s suffix : pystr) : bool :=
  bool_decide (drop (length s - length suffix) s = suffix).

(** [s.startswith(prefix)] *)
Fixpoint startswith (s prefix : pystr) : bool :=
  match prefix, s with
  | [], _ => true
  | p :: prefix', c :: s' => (p =? c) && startswith s' prefix'
  | _ :: _, [] => false
  end.

(** [needle in haystack] for two strings: substring test. *)
Fixpoint str_contains (haystack needle : pystr) : bool :=
  startswith haystack needle ||
  match haystack with
  | [] => false
  | _ :: rest => str_contains rest needle
  end.

(** Decimal digits of a natural number, as [str(n)] prints them. *)
Fixpoint uint_digits (d : Decimal.uint) : pystr :=
  match d with
  | Decimal.Nil => []
  | Decimal.D0 d => 48 :: uint_digits d
  | Decimal.D1 d => 49 :: uint_digits d
  | Decimal.D2 d => 50 :: uint_digits d
  | Decimal.D3 d => 51 :: uint_digits d
  | Decimal.D4 d => 52 :: uint_digits d
  | Decimal.D5 d => 53 :: uint_digits d
  | Decimal.D6 d => 54 :: uint_digits d
  | Decimal.D7 d => 55 :: uint_digits d
  | Decimal.D8 d => 56 :: uint_digits d
  | Decimal.D9 d => 57 :: uint_digits d
  end.

(** [str(n)] for a non-negative integer. *)
Definition str_of_N (n : N) : pystr := uint_digits (N.to_uint n).

(** [str(z)] for an integer. *)
Definition str_of_Z (z : Z) : pystr :=
  match z with
  | Z0 => [48]
  | Zpos p => str_of_N (Npos p)
  | Zneg p => 45 :: str_of_N (Npos p)
  end.

(** *** [str.upper]

    CPython uppercases a string code point by code point, each through
    the full Unicode case mapping (one code point may become several).
    [upper_table] lists every code point that [upper] changes, with its
    image (Unicode 14.0.0, the database of CPython 3.11); all other code
    points are left as they are. *)
Definition upper_table : list (N * pystr) := [
  (97,[65]); (98,[66]); (99,[67]); (100,[68]); (101,[69]); (102,[70]); (103,[71]); (104,[72]);
  (105,[73]); (106,[74]); (107,[75]); (108,[76]); (109,[77]); (110,[78]); (111,[79]); (112,[80]);
  (113,[81]); (114,[82]); (115,[83]); (116,[84]); (117,[85]); (118,[86]); (119,[87]); (120,[88]);
  (121,[89]); (122,[90]); (181,[924]); (223,[83;83]); (224,[192]); (225,[193]); (226,[194]);
  (227,[195]); (228,[196]); (229,[197]); (230,[198]); (231,[199]); (232,[200]); (233,[201]);
  (234,[202]); (235,[203]); (236,[204]); (237,[205]); (238,[206]); (239,[207]); (240,[208]);
  (241,[209]); (242,[210]); (243,[211]); (244,[212]); (245,[213]); (246,[214]); (248,[216]);
  (249,[217]); (250,[218]); (251,[219]); (252,[220]); (253,[221]); (254,[222]); (255,[376]);
  (257,[256]); (259,[258]); (261,[260]); (263,[262]); (265,[264]); (267,[266]); (269,[268]);
  (271,[270]); (273,[272]); (275,[274]); (277,[276]); (279,[278]); (281,[280]); (283,[282]);
  (285,[284]); (287,[286]); (289,[288]); (291,[290]); (293,[292]); (295,[294]); (297,[296]);
  (299,[298]); (301,[300]); (303,[302]); (305,[73]); (307,[306]); (309,[308]); (311,[310]);
  (314,[313]); (316,[315]); (318,[317]); (320,[319]); (322,[321]); (324,[323]); (326,[325]);
  (328,[327]); (329,[700;78]); (331,[330]); (333,[332]); (335,[334]); (337,[336]); (339,[338]);
  (341,[340]); (343,[342]); (345,[344]); (347,[346]); (349,[348]); (351,[350]); (353,[352]);
  (355,[354]); (357,[356]); (359,[358]); (361,[360]); (363,[362]); (365,[364]); (367,[366]);
  (369,[368]); (371,[370]); (373,[372]); (375,[374]); (378,[377]); (380,[379]); (382,[381]);
  (383,[83]); (384,[579]); (387,[386]); (389,[388]); (392,[391]); (396,[395]); (402,[401]);
  (405,[502]); (409,[408]); (410,[573]); (414,[544]); (417,[416]); (419,[418]); (421,[420]);
  (424,[423]); (429,[428]); (432,[431]); (436,[435]); (438,[437]); (441,[440]); (445,[444]);
  (447,[503]); (453,[452]); (454,[452]); (456,[455]); (457,[455]); (459,[458]); (460,[458]);
  (462,[461]); (464,[463]); (466,[465]); (468,[467]); (470,[469]); (472,[471]); (474,[473]);
  (476,[475]); (477,[398]); (479,[478]); (481,[480]); (483,[482]); (485,[484]); (487,[486]);
  (489,[488]); (491,[490]); (493,[492]); (495,[494]); (496,[74;780]); (498,[497]); (499,[497]);
  (501,[500]); (505,[504]); (507,[506]); (509,[508]); (511,[510]); (513,[512]); (515,[514]);
  (517,[516]); (519,[518]); (521,[520]); (523,[522]); (525,[524]); (527,[526]); (529,[528]);
  (531,[530]); (533,[532]); (535,[534]); (537,[536]); (539,[538]); (541,[540]); (543,[542]);
  (547,[546]); (549,[548]); (551,[550]); (553,[552]); (555,[554]); (557,[556]); (559,[558]);
  (561,[560]); (563,[562]); (572,[571]); (575,[11390]); (576,[11391]); (578,[577]); (583,[582]);
  (585,[584]); (587,[586]); (589,[588]); (591,[590]); (592,[11375]); (593,[11373]);
  (594,[11376]); (595,[385]); (596,[390]); (598,[393]); (599,[394]); (601,[399]); (603,[400]);
  (604,[42923]); (608,[403]); (609,[42924]); (611,[404]); (613,[42893]); (614,[42922]);
  (616,[407]); (617,[406]); (618,[42926]); (619,[11362]); (620,[42925]); (623,[412]);
  (625,[11374]); (626,[413]); (629,[415]); (637,[11364]); (640,[422]); (642,[42949]);
  (643,[425]); (647,[42929]); (648,[430]); (649,[580]); (650,[433]); (651,[434]); (652,[581]);
  (658,[439]); (669,[42930]); (670,[42928]); (837,[921]); (881,[880]); (883,[882]); (887,[886]);
  (891,[1021]); (892,[1022]); (893,[1023]); (912,[921;776;769]); (940,[902]); (941,[904]);
  (942,[905]); (943,[906]); (944,[933;776;769]); (945,[913]); (946,[914]); (947,[915]);
  (948,[916]); (949,[917]); (950,[918]); (951,[919]); (952,[920]); (953,[921]); (954,[922]);
  (955,[923]); (956,[924]); (957,[925]); (958,[926]); (959,[927]); (960,[928]); (961,[929]);
  (962,[931]); (963,[931]); (964,[932]); (965,[933]); (966,[934]); (967,[935]); (968,[936]);
  (969,[937]); (970,[938]); (971,[939]); (972,[908]); (973,[910]); (974,[911]); (976,[914]);
  (977,[920]); (981,[934]); (982,[928]); (983,[975]); (985,[984]); (987,[986]); (989,[988]);
  (991,[990]); (993,[992]); (995,[994]); (997,[996]); (999,[998]); (1001,[1000]); (1003,[1002]);
  (1005,[1004]); (1007,[1006]); (1008,[922]); (1009,[929]); (1010,[1017]); (1011,[895]);
  (1013,[917]); (1016,[1015]); (1019,[1018]); (1072,[1040]); (1073,[1041]); (1074,[1042]);
  (1075,[1043]); (1076,[1044]); (1077,[1045]); (1078,[1046]); (1079,[1047]); (1080,[1048]);
  (1081,[1049]); (1082,[1050]); (1083,[1051]); (1084,[1052]); (1085,[1053]); (1086,[1054]);
  (1087,[1055]); (1088,[1056]); (1089,[1057]); (1090,[1058]); (1091,[1059]); (1092,[1060]);
  (1093,[1061]); (1094,[1062]); (1095,[1063]); (1096,[1064]); (1097,[1065]); (1098,[1066]);
  (1099,[1067]); (1100,[1068]); (1101,[1069]); (1102,[1070]); (1103,[1071]); (1104,[1024]);
  (1105,[1025]); (1106,[1026]); (1107,[1027]); (1108,[1028]); (1109,[1029]); (1110,[1030]);
  (1111,[1031]); (1112,[1032]); (1113,[1033]); (1114,[1034]); (1115,[1035]); (1116,[1036]);
  (1117,[1037]); (1118,[1038]); (1119,[1039]); (1121,[1120]); (1123,[1122]); (1125,[1124]);
  (1127,[1126]); (1129,[1128]); (1131,[1130]); (1133,[1132]); (1135,[1134]); (1137,[1136]);
  (1139,[1138]); (1141,[1140]); (1143,[1142]); (1145,[1144]); (1147,[1146]); (1149,[1148]);
  (1151,[1150]); (1153,[1152]); (1163,[1162]); (1165,[1164]); (1167,[1166]); (1169,[1168]);
  (1171,[1170]); (1173,[1172]); (1175,[1174]); (1177,[1176]); (1179,[1178]); (1181,[1180]);
  (1183,[1182]); (1185,[1184]); (1187,[1186]); (1189,[1188]); (1191,[1190]); (1193,[1192]);
  (1195,[1194]); (1197,[1196]); (1199,[1198]); (1201,[1200]); (1203,[1202]); (1205,[1204]);
  (1207,[1206]); (1209,[1208]); (1211,[1210]); (1213,[1212]); (1215,[1214]); (1218,[1217]);
  (1220,[1219]); (1222,[1221]); (1224,[1223]); (1226,[1225]); (1228,[1227]); (1230,[1229]);
  (1231,[1216]); (1233,[1232]); (1235,[1234]); (1237,[1236]); (1239,[1238]); (1241,[1240]);
  (1243,[1242]); (1245,[1244]); (1247,[1246]); (1249,[1248]); (1251,[1250]); (1253,[1252]);
  (1255,[1254]); (1257,[1256]); (1259,[1258]); (1261,[1260]); (1263,[1262]); (1265,[1264]);
  (1267,[1266]); (1269,[1268]); (1271,[1270]); (1273,[1272]); (1275,[1274]); (1277,[1276]);
  (1279,[1278]); (1281,[1280]); (1283,[1282]); (1285,[1284]); (1287,[1286]); (1289,[1288]);
  (1291,[1290]); (1293,[1292]); (1295,[1294]); (1297,[1296]); (1299,[1298]); (1301,[1300]);
  (1303,[1302]); (1305,[1304]); (1307,[1306]); (1309,[1308]); (1311,[1310]); (1313,[1312]);
  (1315,[1314]); (1317,[1316]); (1319,[1318]); (1321,[1320]); (1323,[1322]); (1325,[1324]);
  (1327,[1326]); (1377,[1329]); (1378,[1330]); (1379,[1331]); (1380,[1332]); (1381,[1333]);
  (1382,[1334]); (1383,[1335]); (1384,[1336]); (1385,[1337]); (1386,[1338]); (1387,[1339]);
  (1388,[1340]); (1389,[1341]); (1390,[1342]); (1391,[1343]); (1392,[1344]); (1393,[1345]);
  (1394,[1346]); (1395,[1347]); (1396,[1348]); (1397,[1349]); (1398,[1350]); (1399,[1351]);
  (1400,[1352]); (1401,[1353]); (1402,[1354]); (1403,[1355]); (1404,[1356]); (1405,[1357]);
  (1406,[1358]); (1407,[1359]); (1408,[1360]); (1409,[1361]); (1410,[1362]); (1411,[1363]);
  (1412,[1364]); (1413,[1365]); (1414,[1366]); (1415,[1333;1362]); (4304,[7312]); (4305,[7313]);
  (4306,[7314]); (4307,[7315]); (4308,[7316]); (4309,[7317]); (4310,[7318]); (4311,[7319]);
  (4312,[7320]); (4313,[7321]); (4314,[7322]); (4315,[7323]); (4316,[7324]); (4317,[7325]);
  (4318,[7326]); (4319,[7327]); (4320,[7328]); (4321,[7329]); (4322,[7330]); (4323,[7331]);
  (4324,[7332]); (4325,[7333]); (4326,[7334]); (4327,[7335]); (4328,[7336]); (4329,[7337]);
  (4330,[7338]); (4331,[7339]); (4332,[7340]); (4333,[7341]); (4334,[7342]); (4335,[7343]);
  (4336,[7344]); (4337,[7345]); (4338,[7346]); (4339,[7347]); (4340,[7348]); (4341,[7349]);
  (4342,[7350]); (4343,[7351]); (4344,[7352]); (4345,[7353]); (4346,[7354]); (4349,[7357]);
  (4350,[7358]); (4351,[7359]); (5112,[5104]); (5113,[5105]); (5114,[5106]); (5115,[5107]);
  (5116,[5108]); (5117,[5109]); (7296,[1042]); (7297,[1044]); (7298,[1054]); (7299,[1057]);
  (7300,[1058]); (7301,[1058]); (7302,[1066]); (7303,[1122]); (7304,[42570]); (7545,[42877]);
  (7549,[11363]); (7566,[42950]); (7681,[7680]); (7683,[7682]); (7685,[7684]); (7687,[7686]);
  (7689,[7688]); (7691,[7690]); (7693,[7692]); (7695,[7694]); (7697,[7696]); (7699,[7698]);
  (7701,[7700]); (7703,[7702]); (7705,[7704]); (7707,[7706]); (7709,[7708]); (7711,[7710]);
  (7713,[7712]); (7715,[7714]); (7717,[7716]); (7719,[7718]); (7721,[7720]); (7723,[7722]);
  (7725,[7724]); (7727,[7726]); (7729,[7728]); (7731,[7730]); (7733,[7732]); (7735,[7734]);
  (7737,[7736]); (7739,[7738]); (7741,[7740]); (7743,[7742]); (7745,[7744]); (7747,[7746]);
  (7749,[7748]); (7751,[7750]); (7753,[7752]); (7755,[7754]); (7757,[7756]); (7759,[7758]);
  (7761,[7760]); (7763,[7762]); (7765,[7764]); (7767,[7766]); (7769,[7768]); (7771,[7770]);
  (7773,[7772]); (7775,[7774]); (7777,[7776]); (7779,[7778]); (7781,[7780]); (7783,[7782]);
  (7785,[7784]); (7787,[7786]); (7789,[7788]); (7791,[7790]); (7793,[7792]); (7795,[7794]);
  (7797,[7796]); (7799,[7798]); (7801,[7800]); (7803,[7802]); (7805,[7804]); (7807,[7806]);
  (7809,[7808]); (7811,[7810]); (7813,[7812]); (7815,[7814]); (7817,[7816]); (7819,[7818]);
  (7821,[7820]); (7823,[7822]); (7825,[7824]); (7827,[7826]); (7829,[7828]); (7830,[72;817]);
  (7831,[84;776]); (7832,[87;778]); (7833,[89;778]); (7834,[65;702]); (7835,[7776]);
  (7841,[7840]); (7843,[7842]); (7845,[7844]); (7847,[7846]); (7849,[7848]); (7851,[7850]);
  (7853,[7852]); (7855,[7854]); (7857,[7856]); (7859,[7858]); (7861,[7860]); (7863,[7862]);
  (7865,[7864]); (7867,[7866]); (7869,[7868]); (7871,[7870]); (7873,[7872]); (7875,[7874]);
  (7877,[7876]); (7879,[7878]); (7881,[7880]); (7883,[7882]); (7885,[7884]); (7887,[7886]);
  (7889,[7888]); (7891,[7890]); (7893,[7892]); (7895,[7894]); (7897,[7896]); (7899,[7898]);
  (7901,[7900]); (7903,[7902]); (7905,[7904]); (7907,[7906]); (7909,[7908]); (7911,[7910]);
  (7913,[7912]); (7915,[7914]); (7917,[7916]); (7919,[7918]); (7921,[7920]); (7923,[7922]);
  (7925,[7924]); (7927,[7926]); (7929,[7928]); (7931,[7930]); (7933,[7932]); (7935,[7934]);
  (7936,[7944]); (7937,[7945]); (7938,[7946]); (7939,[7947]); (7940,[7948]); (7941,[7949]);
  (7942,[7950]); (7943,[7951]); (7952,[7960]); (7953,[7961]); (7954,[7962]); (7955,[7963]);
  (7956,[7964]); (7957,[7965]); (7968,[7976]); (7969,[7977]); (7970,[7978]); (7971,[7979]);
  (7972,[7980]); (7973,[7981]); (7974,[7982]); (7975,[7983]); (7984,[7992]); (7985,[7993]);
  (7986,[7994]); (7987,[7995]); (7988,[7996]); (7989,[7997]); (7990,[7998]); (7991,[7999]);
  (8000,[8008]); (8001,[8009]); (8002,[8010]); (8003,[8011]); (8004,[8012]); (8005,[8013]);
  (8016,[933;787]); (8017,[8025]); (8018,[933;787;768]); (8019,[8027]); (8020,[933;787;769]);
  (8021,[8029]); (8022,[933;787;834]); (8023,[8031]); (8032,[8040]); (8033,[8041]);
  (8034,[8042]); (8035,[8043]); (8036,[8044]); (8037,[8045]); (8038,[8046]); (8039,[8047]);
  (8048,[8122]); (8049,[8123]); (8050,[8136]); (8051,[8137]); (8052,[8138]); (8053,[8139]);
  (8054,[8154]); (8055,[8155]); (8056,[8184]); (8057,[8185]); (8058,[8170]); (8059,[8171]);
  (8060,[8186]); (8061,[8187]); (8064,[7944;921]); (8065,[7945;921]); (8066,[7946;921]);
  (8067,[7947;921]); (8068,[7948;921]); (8069,[7949;921]); (8070,[7950;921]); (8071,[7951;921]);
  (8072,[7944;921]); (8073,[7945;921]); (8074,[7946;921]); (8075,[7947;921]); (8076,[7948;921]);
  (8077,[7949;921]); (8078,[7950;921]); (8079,[7951;921]); (8080,[7976;921]); (8081,[7977;921]);
  (8082,[7978;921]); (8083,[7979;921]); (8084,[7980;921]); (8085,[7981;921]); (8086,[7982;921]);
  (8087,[7983;921]); (8088,[7976;921]); (8089,[7977;921]); (8090,[7978;921]); (8091,[7979;921]);
  (8092,[7980;921]); (8093,[7981;921]); (8094,[7982;921]); (8095,[7983;921]); (8096,[8040;921]);
  (8097,[8041;921]); (8098,[8042;921]); (8099,[8043;921]); (8100,[8044;921]); (8101,[8045;921]);
  (8102,[8046;921]); (8103,[8047;921]); (8104,[8040;921]); (8105,[8041;921]); (8106,[8042;921]);
  (8107,[8043;921]); (8108,[8044;921]); (8109,[8045;921]); (8110,[8046;921]); (8111,[8047;921]);
  (8112,[8120]); (8113,[8121]); (8114,[8122;921]); (8115,[913;921]); (8116,[902;921]);
  (8118,[913;834]); (8119,[913;834;921]); (8124,[913;921]); (8126,[921]); (8130,[8138;921]);
  (8131,[919;921]); (8132,[905;921]); (8134,[919;834]); (8135,[919;834;921]); (8140,[919;921]);
  (8144,[8152]); (8145,[8153]); (8146,[921;776;768]); (8147,[921;776;769]); (8150,[921;834]);
  (8151,[921;776;834]); (8160,[8168]); (8161,[8169]); (8162,[933;776;768]); (8163,[933;776;769]);
  (8164,[929;787]); (8165,[8172]); (8166,[933;834]); (8167,[933;776;834]); (8178,[8186;921]);
  (8179,[937;921]); (8180,[911;921]); (8182,[937;834]); (8183,[937;834;921]); (8188,[937;921]);
  (8526,[8498]); (8560,[8544]); (8561,[8545]); (8562,[8546]); (8563,[8547]); (8564,[8548]);
  (8565,[8549]); (8566,[8550]); (8567,[8551]); (8568,[8552]); (8569,[8553]); (8570,[8554]);
  (8571,[8555]); (8572,[8556]); (8573,[8557]); (8574,[8558]); (8575,[8559]); (8580,[8579]);
  (9424,[9398]); (9425,[9399]); (9426,[9400]); (9427,[9401]); (9428,[9402]); (9429,[9403]);
  (9430,[9404]); (9431,[9405]); (9432,[9406]); (9433,[9407]); (9434,[9408]); (9435,[9409]);
  (9436,[9410]); (9437,[9411]); (9438,[9412]); (9439,[9413]); (9440,[9414]); (9441,[9415]);
  (9442,[9416]); (9443,[9417]); (9444,[9418]); (9445,[9419]); (9446,[9420]); (9447,[9421]);
  (9448,[9422]); (9449,[9423]); (11312,[11264]); (11313,[11265]); (11314,[11266]);
  (11315,[11267]); (11316,[11268]); (11317,[11269]); (11318,[11270]); (11319,[11271]);
  (11320,[11272]); (11321,[11273]); (11322,[11274]); (11323,[11275]); (11324,[11276]);
  (11325,[11277]); (11326,[11278]); (11327,[11279]); (11328,[11280]); (11329,[11281]);
  (11330,[11282]); (11331,[11283]); (11332,[11284]); (11333,[11285]); (11334,[11286]);
  (11335,[11287]); (11336,[11288]); (11337,[11289]); (11338,[11290]); (11339,[11291]);
  (11340,[11292]); (11341,[11293]); (11342,[11294]); (11343,[11295]); (11344,[11296]);
  (11345,[11297]); (11346,[11298]); (11347,[11299]); (11348,[11300]); (11349,[11301]);
  (11350,[11302]); (11351,[11303]); (11352,[11304]); (11353,[11305]); (11354,[11306]);
  (11355,[11307]); (11356,[11308]); (11357,[11309]); (11358,[11310]); (11359,[11311]);
  (11361,[11360]); (11365,[570]); (11366,[574]); (11368,[11367]); (11370,[11369]);
  (11372,[11371]); (11379,[11378]); (11382,[11381]); (11393,[11392]); (11395,[11394]);
  (11397,[11396]); (11399,[11398]); (11401,[11400]); (11403,[11402]); (11405,[11404]);
  (11407,[11406]); (11409,[11408]); (11411,[11410]); (11413,[11412]); (11415,[11414]);
  (11417,[11416]); (11419,[11418]); (11421,[11420]); (11423,[11422]); (11425,[11424]);
  (11427,[11426]); (11429,[11428]); (11431,[11430]); (11433,[11432]); (11435,[11434]);
  (11437,[11436]); (11439,[11438]); (11441,[11440]); (11443,[11442]); (11445,[11444]);
  (11447,[11446]); (11449,[11448]); (11451,[11450]); (11453,[11452]); (11455,[11454]);
  (11457,[11456]); (11459,[11458]); (11461,[11460]); (11463,[11462]); (11465,[11464]);
  (11467,[11466]); (11469,[11468]); (11471,[11470]); (11473,[11472]); (11475,[11474]);
  (11477,[11476]); (11479,[11478]); (11481,[11480]); (11483,[11482]); (11485,[11484]);
  (11487,[11486]); (11489,[11488]); (11491,[11490]); (11500,[11499]); (11502,[11501]);
  (11507,[11506]); (11520,[4256]); (11521,[4257]); (11522,[4258]); (11523,[4259]);
  (11524,[4260]); (11525,[4261]); (11526,[4262]); (11527,[4263]); (11528,[4264]); (11529,[4265]);
  (11530,[4266]); (11531,[4267]); (11532,[4268]); (11533,[4269]); (11534,[4270]); (11535,[4271]);
  (11536,[4272]); (11537,[4273]); (11538,[4274]); (11539,[4275]); (11540,[4276]); (11541,[4277]);
  (11542,[4278]); (11543,[4279]); (11544,[4280]); (11545,[4281]); (11546,[4282]); (11547,[4283]);
  (11548,[4284]); (11549,[4285]); (11550,[4286]); (11551,[4287]); (11552,[4288]); (11553,[4289]);
  (11554,[4290]); (11555,[4291]); (11556,[4292]); (11557,[4293]); (11559,[4295]); (11565,[4301]);
  (42561,[42560]); (42563,[42562]); (42565,[42564]); (42567,[42566]); (42569,[42568]);
  (42571,[42570]); (42573,[42572]); (42575,[42574]); (42577,[42576]); (42579,[42578]);
  (42581,[42580]); (42583,[42582]); (42585,[42584]); (42587,[42586]); (42589,[42588]);
  (42591,[42590]); (42593,[42592]); (42595,[42594]); (42597,[42596]); (42599,[42598]);
  (42601,[42600]); (42603,[42602]); (42605,[42604]); (42625,[42624]); (42627,[42626]);
  (42629,[42628]); (42631,[42630]); (42633,[42632]); (42635,[42634]); (42637,[42636]);
  (42639,[42638]); (42641,[42640]); (42643,[42642]); (42645,[42644]); (42647,[42646]);
  (42649,[42648]); (42651,[42650]); (42787,[42786]); (42789,[42788]); (42791,[42790]);
  (42793,[42792]); (42795,[42794]); (42797,[42796]); (42799,[42798]); (42803,[42802]);
  (42805,[42804]); (42807,[42806]); (42809,[42808]); (42811,[42810]); (42813,[42812]);
  (42815,[42814]); (42817,[42816]); (42819,[42818]); (42821,[42820]); (42823,[42822]);
  (42825,[42824]); (42827,[42826]); (42829,[42828]); (42831,[42830]); (42833,[42832]);
  (42835,[42834]); (42837,[42836]); (42839,[42838]); (42841,[42840]); (42843,[42842]);
  (42845,[42844]); (42847,[42846]); (42849,[42848]); (42851,[42850]); (42853,[42852]);
  (42855,[42854]); (42857,[42856]); (42859,[42858]); (42861,[42860]); (42863,[42862]);
  (42874,[42873]); (42876,[42875]); (42879,[42878]); (42881,[42880]); (42883,[42882]);
  (42885,[42884]); (42887,[42886]); (42892,[42891]); (42897,[42896]); (42899,[42898]);
  (42900,[42948]); (42903,[42902]); (42905,[42904]); (42907,[42906]); (42909,[42908]);
  (42911,[42910]); (42913,[42912]); (42915,[42914]); (42917,[42916]); (42919,[42918]);
  (42921,[42920]); (42933,[42932]); (42935,[42934]); (42937,[42936]); (42939,[42938]);
  (42941,[42940]); (42943,[42942]); (42945,[42944]); (42947,[42946]); (42952,[42951]);
  (42954,[42953]); (42961,[42960]); (42967,[42966]); (42969,[42968]); (42998,[42997]);
  (43859,[42931]); (43888,[5024]); (43889,[5025]); (43890,[5026]); (43891,[5027]);
  (43892,[5028]); (43893,[5029]); (43894,[5030]); (43895,[5031]); (43896,[5032]); (43897,[5033]);
  (43898,[5034]); (43899,[5035]); (43900,[5036]); (43901,[5037]); (43902,[5038]); (43903,[5039]);
  (43904,[5040]); (43905,[5041]); (43906,[5042]); (43907,[5043]); (43908,[5044]); (43909,[5045]);
  (43910,[5046]); (43911,[5047]); (43912,[5048]); (43913,[5049]); (43914,[5050]); (43915,[5051]);
  (43916,[5052]); (43917,[5053]); (43918,[5054]); (43919,[5055]); (43920,[5056]); (43921,[5057]);
  (43922,[5058]); (43923,[5059]); (43924,[5060]); (43925,[5061]); (43926,[5062]); (43927,[5063]);
  (43928,[5064]); (43929,[5065]); (43930,[5066]); (43931,[5067]); (43932,[5068]); (43933,[5069]);
  (43934,[5070]); (43935,[5071]); (43936,[5072]); (43937,[5073]); (43938,[5074]); (43939,[5075]);
  (43940,[5076]); (43941,[5077]); (43942,[5078]); (43943,[5079]); (43944,[5080]); (43945,[5081]);
  (43946,[5082]); (43947,[5083]); (43948,[5084]); (43949,[5085]); (43950,[5086]); (43951,[5087]);
  (43952,[5088]); (43953,[5089]); (43954,[5090]); (43955,[5091]); (43956,[5092]); (43957,[5093]);
  (43958,[5094]); (43959,[5095]); (43960,[5096]); (43961,[5097]); (43962,[5098]); (43963,[5099]);
  (43964,[5100]); (43965,[5101]); (43966,[5102]); (43967,[5103]); (64256,[70;70]);
  (64257,[70;73]); (64258,[70;76]); (64259,[70;70;73]); (64260,[70;70;76]); (64261,[83;84]);
  (64262,[83;84]); (64275,[1348;1350]); (64276,[1348;1333]); (64277,[1348;1339]);
  (64278,[1358;1350]); (64279,[1348;1341]); (65345,[65313]); (65346,[65314]); (65347,[65315]);
  (65348,[65316]); (65349,[65317]); (65350,[65318]); (65351,[65319]); (65352,[65320]);
  (65353,[65321]); (65354,[65322]); (65355,[65323]); (65356,[65324]); (65357,[65325]);
  (65358,[65326]); (65359,[65327]); (65360,[65328]); (65361,[65329]); (65362,[65330]);
  (65363,[65331]); (65364,[65332]); (65365,[65333]); (65366,[65334]); (65367,[65335]);
  (65368,[65336]); (65369,[65337]); (65370,[65338]); (66600,[66560]); (66601,[66561]);
  (66602,[66562]); (66603,[66563]); (66604,[66564]); (66605,[66565]); (66606,[66566]);
  (66607,[66567]); (66608,[66568]); (66609,[66569]); (66610,[66570]); (66611,[66571]);
  (66612,[66572]); (66613,[66573]); (66614,[66574]); (66615,[66575]); (66616,[66576]);
  (66617,[66577]); (66618,[66578]); (66619,[66579]); (66620,[66580]); (66621,[66581]);
  (66622,[66582]); (66623,[66583]); (66624,[66584]); (66625,[66585]); (66626,[66586]);
  (66627,[66587]); (66628,[66588]); (66629,[66589]); (66630,[66590]); (66631,[66591]);
  (66632,[66592]); (66633,[66593]); (66634,[66594]); (66635,[66595]); (66636,[66596]);
  (66637,[66597]); (66638,[66598]); (66639,[66599]); (66776,[66736]); (66777,[66737]);
  (66778,[66738]); (66779,[66739]); (66780,[66740]); (66781,[66741]); (66782,[66742]);
  (66783,[66743]); (66784,[66744]); (66785,[66745]); (66786,[66746]); (66787,[66747]);
  (66788,[66748]); (66789,[66749]); (66790,[66750]); (66791,[66751]); (66792,[66752]);
  (66793,[66753]); (66794,[66754]); (66795,[66755]); (66796,[66756]); (66797,[66757]);
  (66798,[66758]); (66799,[66759]); (66800,[66760]); (66801,[66761]); (66802,[66762]);
  (66803,[66763]); (66804,[66764]); (66805,[66765]); (66806,[66766]); (66807,[66767]);
  (66808,[66768]); (66809,[66769]); (66810,[66770]); (66811,[66771]); (66967,[66928]);
  (66968,[66929]); (66969,[66930]); (66970,[66931]); (66971,[66932]); (66972,[66933]);
  (66973,[66934]); (66974,[66935]); (66975,[66936]); (66976,[66937]); (66977,[66938]);
  (66979,[66940]); (66980,[66941]); (66981,[66942]); (66982,[66943]); (66983,[66944]);
  (66984,[66945]); (66985,[66946]); (66986,[66947]); (66987,[66948]); (66988,[66949]);
  (66989,[66950]); (66990,[66951]); (66991,[66952]); (66992,[66953]); (66993,[66954]);
  (66995,[66956]); (66996,[66957]); (66997,[66958]); (66998,[66959]); (66999,[66960]);
  (67000,[66961]); (67001,[66962]); (67003,[66964]); (67004,[66965]); (68800,[68736]);
  (68801,[68737]); (68802,[68738]); (68803,[68739]); (68804,[68740]); (68805,[68741]);
  (68806,[68742]); (68807,[68743]); (68808,[68744]); (68809,[68745]); (68810,[68746]);
  (68811,[68747]); (68812,[68748]); (68813,[68749]); (68814,[68750]); (68815,[68751]);
  (68816,[68752]); (68817,[68753]); (68818,[68754]); (68819,[68755]); (68820,[68756]);
  (68821,[68757]); (68822,[68758]); (68823,[68759]); (68824,[68760]); (68825,[68761]);
  (68826,[68762]); (68827,[68763]); (68828,[68764]); (68829,[68765]); (68830,[68766]);
  (68831,[68767]); (68832,[68768]); (68833,[68769]); (68834,[68770]); (68835,[68771]);
  (68836,[68772]); (68837,[68773]); (68838,[68774]); (68839,[68775]); (68840,[68776]);
  (68841,[68777]); (68842,[68778]); (68843,[68779]); (68844,[68780]); (68845,[68781]);
  (68846,[68782]); (68847,[68783]); (68848,[68784]); (68849,[68785]); (68850,[68786]);
  (71872,[71840]); (71873,[71841]); (71874,[71842]); (71875,[71843]); (71876,[71844]);
  (71877,[71845]); (71878,[71846]); (71879,[71847]); (71880,[71848]); (71881,[71849]);
  (71882,[71850]); (71883,[71851]); (71884,[71852]); (71885,[71853]); (71886,[71854]);
  (71887,[71855]); (71888,[71856]); (71889,[71857]); (71890,[71858]); (71891,[71859]);
  (71892,[71860]); (71893,[71861]); (71894,[71862]); (71895,[71863]); (71896,[71864]);
  (71897,[71865]); (71898,[71866]); (71899,[71867]); (71900,[71868]); (71901,[71869]);
  (71902,[71870]); (71903,[71871]); (93792,[93760]); (93793,[93761]); (93794,[93762]);
  (93795,[93763]); (93796,[93764]); (93797,[93765]); (93798,[93766]); (93799,[93767]);
  (93800,[93768]); (93801,[93769]); (93802,[93770]); (93803,[93771]); (93804,[93772]);
  (93805,[93773]); (93806,[93774]); (93807,[93775]); (93808,[93776]); (93809,[93777]);
  (93810,[93778]); (93811,[93779]); (93812,[93780]); (93813,[93781]); (93814,[93782]);
  (93815,[93783]); (93816,[93784]); (93817,[93785]); (93818,[93786]); (93819,[93787]);
  (93820,[93788]); (93821,[93789]); (93822,[93790]); (93823,[93791]); (125218,[125184]);
  (125219,[125185]); (125220,[125186]); (125221,[125187]); (125222,[125188]); (125223,[125189]);
  (125224,[125190]); (125225,[125191]); (125226,[125192]); (125227,[125193]); (125228,[125194]);
  (125229,[125195]); (125230,[125196]); (125231,[125197]); (125232,[125198]); (125233,[125199]);
  (125234,[125200]); (125235,[125201]); (125236,[125202]); (125237,[125203]); (125238,[125204]);
  (125239,[125205]); (125240,[125206]); (125241,[125207]); (125242,[125208]); (125243,[125209]);
  (125244,[125210]); (125245,[125211]); (125246,[125212]); (125247,[125213]); (125248,[125214]);
  (125249,[125215]); (125250,[125216]); (125251,[125217])].

Fixpoint table_find (t : list (N * pystr)) (c : N) : option pystr :=
  match t with
  | [] => None
  | (k, v) :: t' => if k =? c then Some v else table_find t' c
  end.

Definition upper_cp (c : N) : pystr :=
  match table_find upper_table c with
  | Some u => u
  | None => [c]
  end.

(** [s.upper()] *)
Definition upper (s : pystr) : pystr := concat (map upper_cp s).

Arguments U : simpl never.
Arguments upper_cp : simpl never.
Arguments upper : simpl never.

(** ** JSON values and exceptions *)

(** What [json.load] can return. An object is kept as its fields in
    insertion order; [json.load] leaves one entry per key. *)
#[warnings="-register-all"]
Inductive json : Type :=
| JNull
| JBool (b : bool)
| JInt (z : Z)
| JFloat (f : spec_float)
| JStr (s : pystr)
| JList (items : list json)
| JDict (fields : list (pystr * json)).

(** The exception classes the script can meet. All of them derive from
    [Exception]; only [CalledProcessError] is caught by the handlers
    written [except subprocess.CalledProcessError]. *)
Inductive exn : Type :=
| AttributeError
| TypeError
| KeyError
| ValueError
| OSError
| CalledProcessError.

Inductive outcome (A : Type) : Type :=
| Ret (a : A)
| Raise (e : exn).
Arguments Ret {A} a.
Arguments Raise {A} e.

#[global] Instance outcome_ret : MRet outcome := @Ret.
#[global] Instance outcome_bind : MBind outcome := λ A B f m,
  match m with
  | Ret a => f a
  | Raise e => Raise e
  end.

Definition returns {A} (o : outcome A) : Prop := ∃ a, o = Ret a.

(** A [for] loop over [l] that updates [acc] and stops at the first
    exception. *)
Fixpoint for_each {A B} (body : B → A → outcome B) (l : list A) (acc : B)
  : outcome B :=
  match l with
  | [] => Ret acc
  | x :: l' => acc' ← body acc x; for_each body l' acc'
  end.

(** [d[key]] on the fields of a dict, [None] when the key is missing. *)
Fixpoint dict_lookup (fields : list (pystr * json)) (key : pystr) : option json :=
  match fields with
  | [] => None
  | (k, v) :: rest => if pystr_eqb k key then Some v else dict_lookup rest key
  end.

(** [obj.get(key, dflt)]: only a dict has the method. *)
Definition py_get (obj : json) (key : pystr) (dflt : json) : outcome json :=
  match obj with
  | JDict fields => Ret (default dflt (dict_lookup fields key))
  | _ => Raise AttributeError
  end.

(** [v.upper()]: only a string has the method. *)
Definition py_upper (v : json) : outcome pystr :=
  match v with
  | JStr s => Ret (upper s)
  | _ => Raise AttributeError
  end.

(** ** The categorizer *)

Definition CRITICAL : pystr := U "CRITICAL".
Definition HIGH : pystr := U "HIGH".
Definition MEDIUM : pystr := U "MEDIUM".
Definition INFORMATIONAL : pystr := U "INFORMATIONAL".
Definition severity_key : pystr := U "severity".

(** The dictionary [categories] as [categorize_findings] creates it. *)
Definition empty_categories : gmap pystr (list json) :=
  <[INFORMATIONAL := []]> (<[MEDIUM := []]> (<[HIGH := []]> (<[CRITICAL := []]> ∅))).

(** One iteration of the loop of [categorize_findings]. *)
Definition categorize_step (categories : gmap pystr (list json)) (finding : json)
  : outcome (gmap pystr (list json)) :=
  value ← py_get finding severity_key (JStr INFORMATIONAL);
  severity ← py_upper value;
  match categories !! severity with
  | Some bucket => Ret (<[severity := bucket ++ [finding]]> categories)
  | None => Ret categories
  end.

(** [SecurityRemediator.categorize_findings] *)
Definition categorize_findings (findings : list json)
  : outcome (gmap pystr (list json)) :=
  for_each categorize_step findings empty_categories.

(** *** Vocabulary of the properties of the categorizer *)

(** The four bucket labels. *)
Definition bucket_labels : list pystr := [CRITICAL; HIGH; MEDIUM; INFORMATIONAL].

(** A finding as the data model has it: a mapping whose [severity], when
    present, is a string. *)
Definition finding_ok (f : json) : Prop :=
  match f with
  | JDict fields =>
      match dict_lookup fields severity_key with
      | Some (JStr _) | None => True
      | Some _ => False
      end
  | _ => False
  end.

(** The label the categorizer files a finding under: its severity in
    upper case, [INFORMATIONAL] when it has none. *)
Definition severity_label (f : json) : pystr :=
  match f with
  | JDict fields =>
      match dict_lookup fields severity_key with
      | Some (JStr s) => upper s
      | _ => INFORMATIONAL
      end
  | _ => INFORMATIONAL
  end.

(** The findings of [fs] filed under [label], in input order. *)
Definition with_label (label : pystr) (fs : list json) : list json :=
  filter (λ f, severity_label f = label) fs.

(** ** The loader *)

(** [key in data], for a string [key]: key membership on a dict, element
    membership on a list, substring test on a string; other values are
    not containers. *)
Definition py_contains (data : json) (key : pystr) : outcome bool :=
  match data with
  | JDict fields => Ret (bool_decide (is_Some (dict_lookup fields key)))
  | JList items =>
      Ret (existsb (λ x, match x with JStr s => pystr_eqb s key | _ => false end) items)
  | JStr s => Ret (str_contains s key)
  | _ => Raise TypeError
  end.

(** [data[key]], for a string [key]: only a dict can be indexed by a
    string. *)
Definition py_getitem (data : json) (key : pystr) : outcome json :=
  match data with
  | JDict fields =>
      match dict_lookup fields key with
      | Some v => Ret v
      | None => Raise KeyError
      end
  | _ => Raise TypeError
  end.

(** The elements [list.extend(v)] appends: the items of a list, the
    characters of a string, the keys of a dict. *)
Definition py_iter (v : json) : outcome (list json) :=
  match v with
  | JList items => Ret items
  | JStr s => Ret (map (λ c, JStr [c]) s)
  | JDict fields => Ret (map (λ kv, JStr kv.1) fields)
  | _ => Raise TypeError
  end.

(** [os.path.join(a, b)] on POSIX. *)
Definition path_join (a b : pystr) : pystr :=
  if startswith b (U "/") then b
  else if bool_decide (a = []) || endswith a (U "/") then a ++ b
  else a ++ U "/" ++ b.

Definition rule_detections : pystr := U "rule_detections".

(** ** The world outside the script *)

(** The actions of the script that change the world. *)
Inductive event : Type :=
| Run (argv : list pystr)
| Copy2 (src dst : pystr).

Definition trace := list event.

(** The answers of the world; each may depend on the actions the script
    has performed before.
    - [path_exists]: [os.path.exists(path)];
    - [listdir]: [os.listdir(path)], the names in the order returned;
    - [load_json]: [open(path, 'r')] followed by [json.load];
    - [run_process]: [subprocess.run(argv, check=True, ...)], giving
      the captured standard output; a non-zero exit status raises
      [CalledProcessError], a program that cannot be started [OSError];
    - [copy_file]: [shutil.copy2(src, dst)]. *)
Record World : Type := {
  path_exists : trace → pystr → bool;
  listdir : trace → pystr → outcome (list pystr);
  load_json : trace → pystr → outcome json;
  run_process : trace → list pystr → outcome pystr;
  copy_file : trace → pystr → pystr → outcome unit;
}.

(** Computations that act on the world: the trace so far goes in, the
    result and the extended trace come out. An exception keeps the trace
    of what was done before it. *)
Definition M (A : Type) : Type := trace → outcome A * trace.

Definition ret {A} (a : A) : M A := λ tr, (Ret a, tr).

Definition bind {A B} (c : M A) (k : A → M B) : M B := λ tr,
  match c tr with
  | (Ret a, tr') => k a tr'
  | (Raise e, tr') => (Raise e, tr')
  end.

Definition lift {A} (o : outcome A) : M A := λ tr, (o, tr).

(** [try: c  except <classes>: handler], where [caught e] tells whether
    the [except] clause names a class of [e]. *)
Definition try_except {A} (c : M A) (caught : exn → bool) (handler : M A) : M A :=
  λ tr,
  match c tr with
  | (Ret a, tr') => (Ret a, tr')
  | (Raise e, tr') => if caught e then handler tr' else (Raise e, tr')
  end.

Declare Scope world_scope.
Delimit Scope world_scope with world.
Notation "x <- c ;; k" := (bind c (λ x, k))
  (at level 100, c at next level, right associativity) : world_scope.
Notation "c ;; k" := (bind c (λ _, k))
  (at level 100, right associativity) : world_scope.

(** [except Exception] *)
Definition any_exception (e : exn) : bool := true.

(** [except subprocess.CalledProcessError] *)
Definition called_process_error (e : exn) : bool :=
  match e with
  | CalledProcessError => true
  | _ => false
  end.

(** ** Fixed texts of the script *)

(** The commit message of [apply_critical_fixes]. *)
Definition commit_msg : pystr := U "🔒 Fix critical security vulnerabilities

CRITICAL FIXES APPLIED:
• Block S3 bucket public access (prevents data exposure)
• Enable S3 server-side encryption (protects data at rest)
• Remove wildcard IAM permissions (enforces least privilege)
• Add IAM condition restrictions (limits scope)
• Enable S3 versioning (prevents data loss)
• Remove programmatic access keys (reduces credential risk)
• Add access logging (improves security monitoring)

These fixes address the most severe security risks that could lead to:
- Data breaches and unauthorized access
- Account compromise through excessive permissions
- Data loss through accidental deletion
- Compliance violations

🤖 Generated with [Claude Code](https://claude.com/claude-code)

Co-Authored-By: Claude Sonnet 4.5 <noreply@anthropic.com>".

(** The list [fixes_applied] and the two halves of the title in [main]. *)
Definition fixes_applied : list pystr := [
  U "🛡️ Block S3 bucket public access (prevents data exposure)";
  U "🔐 Enable S3 server-side encryption (protects data at rest)";
  U "📋 Enable S3 versioning (prevents accidental data loss)";
  U "🚫 Remove wildcard IAM permissions (enforces least privilege)";
  U "📍 Add IAM condition restrictions (limits permission scope)";
  U "🔑 Remove programmatic access keys (reduces credential risk)";
  U "📊 Add access logging for security monitoring";
  U "🏗️ Implement secure-by-default infrastructure patterns" ].
Definition pr_title_1 : pystr := U "🔒 Fix ".
Definition pr_title_2 : pystr := U " Critical/High Security Issues".

(** The dictionary [severity_icons]. *)
Definition severity_icons : gmap pystr pystr :=
  list_to_map [
    (U "CRITICAL", U "🚨");
    (U "HIGH", U "⚠️");
    (U "MEDIUM", U "📋");
    (U "INFORMATIONAL", U "ℹ️") ].

(** The fixed pieces of text between the formatted values. *)
Definition body_head_1 : pystr := U "## ".
Definition body_head_2 : pystr := U " Security Remediation: ".
Definition body_head_3 : pystr := U " Issues

### 📊 Issues Fixed
This pull request addresses **".
Definition body_head_4 : pystr := U " ".
Definition body_head_5 : pystr := U " severity security issues** identified by CrowdStrike FCS CLI.

### 🔍 Security Findings Addressed:
".
Definition fixes_heading : pystr := U "
### ✅ Fixes Applied:
".
Definition body_tail : pystr := U "
### 🎯 Security Impact:
These changes significantly improve the security posture by:
- **Reducing Attack Surface**: Eliminating public access and overprivileged permissions
- **Enforcing Best Practices**: Implementing encryption, versioning, and least privilege
- **Improving Monitoring**: Adding logging and audit capabilities
- **Ensuring Compliance**: Aligning with security frameworks (CIS, SOC2, NIST)

### 🔗 Related Resources:
- **Original Scan Results**: Check the workflow artifacts for detailed findings
- **Security Guidelines**: [AWS Security Best Practices](https://aws.amazon.com/architecture/security-identity-compliance/)
- **Compliance Frameworks**: CIS Benchmarks, SOC2, PCI-DSS

### ⚡ Testing:
- [x] Terraform syntax validation passed
- [x] Security scan validation completed
- [x] No breaking changes to existing functionality
- [x] All fixes follow AWS Well-Architected principles

---
*This pull request was automatically generated by the shift-left security remediation system.*

🤖 Generated with [Claude Code](https://claude.com/claude-code)
".

(** The paths and names the script hard-codes. *)
Definition base_branch : pystr := U "main".
Definition secure_template : pystr :=
  U "automation/remediation-templates/terraform-critical-fixes.tf".
Definition vulnerable_file : pystr := U "terraform/main.tf".
Definition results_path : pystr := U "./fcs-results".
Definition branch_name : pystr := U "security-fixes/critical-high-remediation".

(** [str(v)] of the values whose text is the same on every platform;
    [py_repr] supplies the text of the others (floats, lists, dicts). *)
Definition py_str (py_repr : json → pystr) (v : json) : pystr :=
  match v with
  | JStr s => s
  | JInt z => str_of_Z z
  | JBool true => U "True"
  | JBool false => U "False"
  | JNull => U "None"
  | _ => py_repr v
  end.

Section Script.

Variable w : World.

(** The built-in functions whose result only ends up in the text of the
    pull request: [str.title], [str.lower], and [repr] of floats, lists
    and dicts. *)
Variables py_title py_lower : pystr → pystr.
Variable py_repr : json → pystr.

Definition os_path_exists (path : pystr) : M bool :=
  λ tr, (Ret (path_exists w tr path), tr).

Definition subprocess_run (argv : list pystr) : M pystr :=
  λ tr, (run_process w tr argv, tr ++ [Run argv]).

Definition shutil_copy2 (src dst : pystr) : M unit :=
  λ tr, (copy_file w tr src dst, tr ++ [Copy2 src dst]).

(** The body of the loop of [load_security_findings] for one directory
    entry: the new value of [findings], or the exception raised before
    [findings] was touched. *)
Definition load_file (tr : trace) (results_path filename : pystr)
    (findings : list json) : outcome (list json) :=
  if endswith filename (U ".json") then
    data ← load_json w tr (path_join results_path filename);
    present ← py_contains data rule_detections;
    if (present : bool) then
      value ← py_getitem data rule_detections;
      items ← py_iter value;
      Ret (findings ++ items)
    else Ret findings
  else Ret findings.

(** The loop inside the [try]: the list [findings] as the loop leaves
    it, and the exception that ended the loop early, if any. *)
Fixpoint load_files (tr : trace) (results_path : pystr) (names : list pystr)
    (findings : list json) : list json * option exn :=
  match names with
  | [] => (findings, None)
  | filename :: rest =>
      match load_file tr results_path filename findings with
      | Ret findings' => load_files tr results_path rest findings'
      | Raise e => (findings, Some e)
      end
  end.

(** [SecurityRemediator.load_security_findings]: the handler of
    [except Exception] only prints, and control reaches
    [return findings] with whatever the list holds by then. *)
Definition load_security_findings (results_path : pystr) : M (list json) :=
  λ tr,
  match listdir w tr results_path with
  | Raise _ => (Ret [], tr)
  | Ret names => (Ret (load_files tr results_path names []).1, tr)
  end.

(** ** Branches, commits and the pull request *)

(** [SecurityRemediator.create_fix_branch] *)
Definition create_fix_branch (branch_name : pystr) : M bool :=
  try_except
    (subprocess_run [U "git"; U "checkout"; U "-b"; branch_name] ;; ret true)%world
    called_process_error
    (ret false).


(** [SecurityRemediator.apply_critical_fixes]: when the template is not
    there, control leaves the [try] normally and reaches the final
    [return False]. *)
Definition apply_critical_fixes : M bool :=
  try_except
    (present <- os_path_exists secure_template ;;
     if (present : bool) then
       shutil_copy2 secure_template vulnerable_file ;;
       subprocess_run [U "git"; U "add"; vulnerable_file] ;;
       subprocess_run [U "git"; U "commit"; U "-m"; commit_msg] ;;
       ret true
     else ret false)%world
    any_exception
    (ret false).

(** [SecurityRemediator.push_branch] *)
Definition push_branch (branch_name : pystr) : M bool :=
  try_except
    (subprocess_run [U "git"; U "push"; U "-u"; U "origin"; branch_name] ;; ret true)%world
    called_process_error
    (ret false).

(** [SecurityRemediator.create_pull_request]; [self.base_branch] is
    always [base_branch]. *)
Definition create_pull_request (branch_name title body : pystr) : M bool :=
  try_except
    (subprocess_run
       [U "gh"; U "pr"; U "create";
        U "--title"; title;
        U "--body"; body;
        U "--head"; branch_name;
        U "--base"; base_branch] ;;
     ret true)%world
    called_process_error
    (ret false).

(** ** The pull-request description *)

(** The first assignment to [body]. *)
Definition body_head (severity : pystr) (count : nat) : pystr :=
  let icon := default (U "🔧") (severity_icons !! severity) in
  body_head_1 ++ icon ++ body_head_2 ++ py_title severity ++ body_head_3
    ++ str_of_N (N.of_nat count) ++ body_head_4 ++ py_lower severity ++ body_head_5.

(** The line added for the [i]-th finding. *)
Definition finding_line (i : N) (finding : json) : outcome pystr :=
  rule_name ← py_get finding (U "rule_name") (JStr (U "Unknown Rule"));
  fallback ← py_get finding (U "description") (JStr (U "Security issue detected"));
  description ← py_get finding (U "details") fallback;
  Ret (str_of_N i ++ U ". **" ++ py_str py_repr rule_name ++ U "**: "
         ++ py_str py_repr description ++ [10]).

(** [for i, finding in enumerate(findings, i): body += ...] *)
Fixpoint findings_loop (i : N) (findings : list json) (body : pystr)
  : outcome pystr :=
  match findings with
  | [] => Ret body
  | finding :: rest =>
      line ← finding_line i finding;
      findings_loop (i + 1) rest (body ++ line)
  end.

(** The line added for one fix. *)
Definition fix_line (fix_text : pystr) : pystr := U "- " ++ fix_text ++ [10].

(** [for fix in fixes_applied: body += ...] *)
Definition fixes_loop (fixes : list pystr) (body : pystr) : pystr :=
  fold_left (λ body fix_text, body ++ fix_line fix_text) fixes body.

(** [SecurityRemediator.generate_pr_body] *)
Definition generate_pr_body (severity : pystr) (findings : list json)
    (fixes : list pystr) : outcome pystr :=
  let body := body_head severity (length findings) in
  body ← findings_loop 1 findings body;
  let body := body ++ fixes_heading in
  let body := fixes_loop fixes body in
  let body := body ++ body_tail in
  Ret body.

(** ** The workflow *)

(** [categories[key]] *)
Definition bucket (categories : gmap pystr (list json)) (key : pystr)
  : outcome (list json) :=
  match categories !! key with
  | Some l => Ret l
  | None => Raise KeyError
  end.

(** The part of [main] under [if critical_and_high:]; [None] stands for
    falling through to the end of [main]. *)
Definition remediate (critical_and_high : list json) : M (option Z) :=
  (subprocess_run [U "git"; U "checkout"; U "main"] ;;
   created <- create_fix_branch branch_name ;;
   if (created : bool) then
     applied <- apply_critical_fixes ;;
     if (applied : bool) then
       pushed <- push_branch branch_name ;;
       if (pushed : bool) then
         let pr_title :=
           pr_title_1 ++ str_of_N (N.of_nat (length critical_and_high)) ++ pr_title_2 in
         pr_body <- lift (generate_pr_body (U "CRITICAL/HIGH") critical_and_high
                            fixes_applied) ;;
         opened <- create_pull_request branch_name pr_title pr_body ;;
         if (opened : bool) then ret None else ret (Some 1%Z)
       else ret (Some 1%Z)
     else ret (Some 1%Z)
   else ret (Some 1%Z))%world.

(** [main]: the value it returns. *)
Definition main : M Z :=
  (found <- os_path_exists results_path ;;
   if negb found then ret 0%Z
   else
     findings <- load_security_findings results_path ;;
     categories <- lift (categorize_findings findings) ;;
     if bool_decide (findings = []) then ret 0%Z
     else
       critical <- lift (bucket categories CRITICAL) ;;
       high <- lift (bucket categories HIGH) ;;
       let critical_and_high := critical ++ high in
       if bool_decide (critical_and_high = []) then ret 0%Z
       else
         early <- remediate critical_and_high ;;
         match early with
         | Some code => ret code
         | None => ret 0%Z
         end)%world.

End Script.

(** [sys.exit(main())] run from a fresh process: the exit status of the
    interpreter. An exception that nobody catches prints a traceback and
    ends the process with status 1. *)
Definition exit_status (o : outcome Z) : Z :=
  match o with
  | Ret code => code
  | Raise _ => 1%Z
  end.

(** * Vocabulary of the properties *)

(** ** The loader *)

(** What one directory entry adds to [findings] when it is processed
    without an exception (nothing when it raises). *)
Definition contribution (w : World) (tr : trace) (dir name : pystr) : list json :=
  match load_file w tr dir name [] with
  | Ret items => items
  | Raise _ => []
  end.

(** The list [load_security_findings] returns for [./fcs-results]. *)
Definition findings_on_disk (w : World) (tr : trace) : list json :=
  match listdir w tr results_path with
  | Raise _ => []
  | Ret names => (load_files w tr results_path names []).1
  end.

(** ** The pull-request description *)

Definition is_dict (v : json) : Prop :=
  match v with
  | JDict _ => True
  | _ => False
  end.

(** [f.get(key, dflt)] for a finding that is a dict. *)
Definition field_or (f : json) (key : pystr) (dflt : json) : json :=
  match f with
  | JDict fields => default dflt (dict_lookup fields key)
  | _ => dflt
  end.

Definition rule_name_of (f : json) : json :=
  field_or f (U "rule_name") (JStr (U "Unknown Rule")).

Definition description_of (f : json) : json :=
  field_or f (U "details")
    (field_or f (U "description") (JStr (U "Security issue detected"))).

(** The entry of the finding numbered [n]. *)
Definition numbered_entry (py_repr : json → pystr) (n : nat) (f : json) : pystr :=
  str_of_N (N.of_nat n) ++ U ". **" ++ py_str py_repr (rule_name_of f) ++ U "**: "
    ++ py_str py_repr (description_of f) ++ [10].

(** ** The workflow *)

(** The actions of the remediation path, in the order [main] attempts
    them. *)
Definition checkout_main : event := Run [U "git"; U "checkout"; U "main"].
Definition checkout_fix_branch (branch : pystr) : event :=
  Run [U "git"; U "checkout"; U "-b"; branch].
Definition copy_template : event := Copy2 secure_template vulnerable_file.
Definition stage_fix : event := Run [U "git"; U "add"; vulnerable_file].
Definition commit_fix : event := Run [U "git"; U "commit"; U "-m"; commit_msg].
Definition push_fix_branch (branch : pystr) : event :=
  Run [U "git"; U "push"; U "-u"; U "origin"; branch].
Definition open_pull_request (branch title body : pystr) : event :=
  Run [U "gh"; U "pr"; U "create"; U "--title"; title; U "--body"; body;
       U "--head"; branch; U "--base"; base_branch].

Definition pipeline (branch title body : pystr) : list event :=
  [ checkout_main; checkout_fix_branch branch; copy_template; stage_fix; commit_fix;
    push_fix_branch branch; open_pull_request branch title body ].

(** The trace after the actions [es] have been attempted one by one. *)
Definition after (tr : trace) (es : list event) : trace :=
  fold_left (λ t e, t ++ [e]) es tr.

(** Whether the world lets the action [e] succeed when it is attempted
    after [tr]. *)
Definition succeeds (w : World) (tr : trace) (e : event) : bool :=
  match e with
  | Run argv => match run_process w tr argv with Ret _ => true | Raise _ => false end
  | Copy2 src dst => match copy_file w tr src dst with Ret _ => true | Raise _ => false end
  end.

(** Whether the [n]-th action of [p] succeeds when the ones before it
    have been attempted. *)
Definition step_ok (w : World) (tr : trace) (p : list event) (n : nat) : bool :=
  match p !! n with
  | Some e => succeeds w (after tr (take n p)) e
  | None => false
  end.

Definition critical_and_high (fs : list json) : list json :=
  with_label CRITICAL fs ++ with_label HIGH fs.

(** The runs with nothing to remediate: no results directory, or
    findings none of which is CRITICAL or HIGH (possibly none at all). *)
Definition nothing_to_remediate (w : World) (tr : trace) : Prop :=
  path_exists w tr results_path = false
  ∨ (Forall finding_ok (findings_on_disk w tr)
     ∧ ∀ f, f ∈ findings_on_disk w tr →
            severity_label f ≠ CRITICAL ∧ severity_label f ≠ HIGH).

(** The runs that reach the remediation path. *)
Definition needs_remediation (w : World) (tr : trace) : Prop :=
  path_exists w tr results_path = true
  ∧ Forall finding_ok (findings_on_disk w tr)
  ∧ ∃ f, f ∈ findings_on_disk w tr
         ∧ (severity_label f = CRITICAL ∨ severity_label f = HIGH).

(** How [main] ends once [remediate] has run. *)
Definition finish (r : outcome (option Z) * trace) : outcome Z * trace :=
  match r with
  | (Ret (Some code), tr') => (Ret code, tr')
  | (Ret None, tr') => (Ret 0%Z, tr')
  | (Raise e, tr') => (Raise e, tr')
  end.

(** The title [main] gives the pull request. *)
Definition pr_title (cah : list json) : pystr :=
  pr_title_1 ++ str_of_N (N.of_nat (length cah)) ++ pr_title_2.

Section Steps.

Variable w : World.
Variables py_title py_lower : pystr → pystr.
Variable py_repr : json → pystr.

(** The body [main] gives the pull request. *)
Definition pr_body (cah : list json) : pystr :=
  match generate_pr_body py_title py_lower py_repr (U "CRITICAL/HIGH") cah fixes_applied with
  | Ret body => body
  | Raise _ => []
  end.

(** The remediation path of the run that starts after [tr]. *)
Definition run_pipeline (tr : trace) : list event :=
  let cah := critical_and_high (findings_on_disk w tr) in
  pipeline branch_name (pr_title cah) (pr_body cah).

(** The steps of the remediation path, each judged after the ones
    before it have been attempted. *)
Definition base_checked_out (tr : trace) : bool := step_ok w tr (run_pipeline tr) 0.

Definition branch_created (tr : trace) : bool := step_ok w tr (run_pipeline tr) 1.

Definition template_present (tr : trace) : bool :=
  path_exists w (after tr (take 2 (run_pipeline tr))) secure_template.

Definition fixes_committed (tr : trace) : bool :=
  template_present tr
  && step_ok w tr (run_pipeline tr) 2
  && step_ok w tr (run_pipeline tr) 3
  && step_ok w tr (run_pipeline tr) 4.

Definition branch_pushed (tr : trace) : bool := step_ok w tr (run_pipeline tr) 5.

Definition pull_request_opened (tr : trace) : bool := step_ok w tr (run_pipeline tr) 6.

End Steps.

(** ** Sample findings and worlds *)

Definition sample_critical : json :=
  JDict [(U "rule_name", JStr (U "S3 bucket is public")); (severity_key, JStr (U "Critical"))].
Definition sample_medium : json := JDict [(severity_key, JStr (U "medium"))].
Definition sample_low : json := JDict [(severity_key, JStr (U "LOW"))].
Definition sample_unlabelled : json := JDict [(U "rule_name", JStr (U "Logging disabled"))].
Definition sample_numeric : json := JDict [(severity_key, JInt 5)].

(** A results directory with a good file followed by a malformed one. *)
Definition world_partial : World := {|
  path_exists := λ _ _, true;
  listdir := λ _ _, Ret [U "a.json"; U "b.json"];
  load_json := λ _ path,
    if pystr_eqb path (U "./fcs-results/a.json")
    then Ret (JDict [(rule_detections, JList [sample_critical])])
    else Raise ValueError;
  run_process := λ _ _, Ret [];
  copy_file := λ _ _ _, Ret tt |}.

(** A results directory whose files have no [rule_detections]. *)
Definition world_no_detections : World := {|
  path_exists := λ _ _, true;
  listdir := λ _ _, Ret [U "scan.json"; U "notes.txt"; U "summary.json"];
  load_json := λ _ path,
    if pystr_eqb path (U "./fcs-results/scan.json")
    then Ret (JDict [(U "status", JStr (U "ok"))])
    else Ret (JDict []);
  run_process := λ _ _, Ret [];
  copy_file := λ _ _ _, Ret tt |}.

(** A world whose results directory holds one file with the given
    findings; [template] tells whether the remediation template is
    there, [fails] which commands exit with a non-zero status. *)
Definition world_with (findings : list json) (template : bool)
    (fails : list pystr → bool) : World := {|
  path_exists := λ _ path, if pystr_eqb path secure_template then template else true;
  listdir := λ _ _, Ret [U "scan.json"];
  load_json := λ _ _, Ret (JDict [(rule_detections, JList findings)]);
  run_process := λ _ argv, if fails argv then Raise CalledProcessError else Ret [];
  copy_file := λ _ _ _, Ret tt |}.

Definition no_failure (argv : list pystr) : bool := false.

Definition checkout_main_fails (argv : list pystr) : bool :=
  bool_decide (argv = [U "git"; U "checkout"; U "main"]).

(** ** Vocabulary of the further properties *)

(** The findings the categorizer drops: those whose label is none of
    the four. *)
Definition dropped (fs : list json) : list json :=
  filter (λ f, severity_label f ∉ bucket_labels) fs.

(** [s] spells [label] letter by letter, each letter in either case
    (the labels are made of the ASCII capitals). *)
Definition same_letters (s label : pystr) : Prop :=
  Forall2 (λ c u, c = u ∨ c = (u + 32)%N) s label.

(** The detections a directory entry holds when it is a well-formed
    results file: the elements of the array [rule_detections] of a
    [.json] file whose content is an object. *)
Definition detections (w : World) (tr : trace) (dir name : pystr) : list json :=
  if endswith name (U ".json") then
    match load_json w tr (path_join dir name) with
    | Ret (JDict fields) =>
        match dict_lookup fields rule_detections with
        | Some (JList items) => items
        | _ => []
        end
    | _ => []
    end
  else [].

(** A directory entry the loader gets through: a name without the
    [.json] suffix, or a file that parses to an object whose
    [rule_detections], if there, is an array. *)
Definition entry_well_formed (w : World) (tr : trace) (dir name : pystr) : Prop :=
  endswith name (U ".json") = false
  ∨ ∃ fields, load_json w tr (path_join dir name) = Ret (JDict fields)
      ∧ (dict_lookup fields rule_detections = None
         ∨ ∃ items, dict_lookup fields rule_detections = Some (JList items)).

(** The exception the world answers the action [e] with when it is
    attempted after [tr], if it makes the action fail. *)
Definition raised (w : World) (tr : trace) (e : event) : option exn :=
  match e with
  | Run argv => match run_process w tr argv with Ret _ => None | Raise x => Some x end
  | Copy2 src dst => match copy_file w tr src dst with Ret _ => None | Raise x => Some x end
  end.

(** The exception that makes the [n]-th action of [p] fail, if it
    fails, when the ones before it have been attempted. *)
Definition step_raises (w : World) (tr : trace) (p : list event) (n : nat) : option exn :=
  match p !! n with
  | Some e => raised w (after tr (take n p)) e
  | None => None
  end.

(** The three actions of [apply_critical_fixes]. *)
Definition fix_steps : list event := [copy_template; stage_fix; commit_fix].

(** How [main] ends when the [n]-th action of the pipeline is the first
    to fail, with the exception [x]: the checkout of the base branch has
    no handler; the actions of [apply_critical_fixes] (2, 3 and 4) are
    under [except Exception]; the others only under
    [except CalledProcessError]. *)
Definition failure_result (n : nat) (x : exn) : outcome Z :=
  if (n =? 0)%nat then Raise x
  else if (2 <=? n)%nat && (n <=? 4)%nat then Ret 1%Z
  else if called_process_error x then Ret 1%Z
  else Raise x.

Section Failures.

Variable w : World.
Variables py_title py_lower : pystr → pystr.
Variable py_repr : json → pystr.

(** The first [n] actions of the remediation path all succeed. *)
Definition steps_ok_before (tr : trace) (n : nat) : bool :=
  forallb (step_ok w tr (run_pipeline w py_title py_lower py_repr tr)) (seq 0 n).

(** The [n]-th action of the remediation path is the first to fail, and
    it fails with [x]. For the actions after the creation of the branch
    to be reached at all the template has to be there. *)
Definition first_failure (tr : trace) (n : nat) (x : exn) : Prop :=
  steps_ok_before tr n = true
  ∧ ((n <? 2)%nat || template_present w py_title py_lower py_repr tr) = true
  ∧ step_raises w tr (run_pipeline w py_title py_lower py_repr tr) n = Some x.

End Failures.

(** A world like [world_with] in which [failure] picks the commands that
    fail and the exception each one raises. *)
Definition world_answering (findings : list json) (template : bool)
    (failure : list pystr → option exn) : World := {|
  path_exists := λ _ path, if pystr_eqb path secure_template then template else true;
  listdir := λ _ _, Ret [U "scan.json"];
  load_json := λ _ _, Ret (JDict [(rule_detections, JList findings)]);
  run_process := λ _ argv,
    match failure argv with
    | Some x => Raise x
    | None => Ret []
    end;
  copy_file := λ _ _ _, Ret tt |}.

(** [gh] is not installed: starting it raises [OSError]. *)
Definition gh_missing (argv : list pystr) : option exn :=
  match argv with
  | prog :: _ => if pystr_eqb prog (U "gh") then Some OSError else None
  | [] => None
  end.

(** The push is rejected: [git push] exits with a non-zero status. *)
Definition push_rejected (argv : list pystr) : option exn :=
  if pystr_eqb (default [] (argv !! 1%nat)) (U "push") then Some CalledProcessError else None.

Definition no_exception (argv : list pystr) : option exn := None.


(** A machine without results directory. *)
Definition world_missing_dir : World := {|
  path_exists := λ _ _, false;
  listdir := λ _ _, Raise OSError;
  load_json := λ _ _, Raise OSError;
  run_process := λ _ _, Ret [];
  copy_file := λ _ _ _, Ret tt |}.

(** A results directory with two results files, each with detections,
    and an entry that is not a results file between them. *)
Definition world_two_files : World := {|
  path_exists := λ _ _, true;
  listdir := λ _ _, Ret [U "a.json"; U "notes.txt"; U "b.json"];
  load_json := λ _ path,
    if pystr_eqb path (U "./fcs-results/a.json")
    then Ret (JDict [(U "scan", JStr (U "iac"));
                     (rule_detections, JList [sample_critical; sample_low])])
    else if pystr_eqb path (U "./fcs-results/b.json")
    then Ret (JDict [(rule_detections, JList [sample_medium])])
    else Raise ValueError;
  run_process := λ _ _, Ret [];
  copy_file := λ _ _ _, Ret tt |}.

(** * Properties *)

(** ** The categorizer *)

#[global] Instance finding_ok_dec f : Decision (finding_ok f).
Proof.
  destruct f as [| | | | |?|fields]; simpl; try (right; tauto).
  destruct (dict_lookup fields severity_key) as [[]|]; simpl;
    first [left; exact I | right; tauto].
Defined.

Lemma upper_INFORMATIONAL : upper INFORMATIONAL = INFORMATIONAL.
Proof. vm_compute. reflexivity. Qed.

(** [upper] is the Unicode mapping, not the ASCII one: the dotless i
    becomes [I], the sharp s becomes [SS]. *)
Example upper_mixed_case : upper (U "Critical") = CRITICAL.
Proof. vm_compute. reflexivity. Qed.

Example upper_dotless_i : upper (U "crıtıcal") = CRITICAL.
Proof. vm_compute. reflexivity. Qed.

Example upper_sharp_s : upper (U "straße") = U "STRASSE".
Proof. vm_compute. reflexivity. Qed.

Lemma lookup_empty_categories (k : pystr) :
  empty_categories !! k = if decide (k ∈ bucket_labels) then Some [] else None.
Proof.
  unfold empty_categories, bucket_labels.
  rewrite !lookup_insert, lookup_empty.
  destruct (decide (k ∈ [CRITICAL; HIGH; MEDIUM; INFORMATIONAL])) as [Hin|Hnin].
  - rewrite !elem_of_cons, elem_of_nil in Hin.
    destruct Hin as [->|[->|[->|[->|[]]]]];
      repeat case_decide; try reflexivity; congruence.
  - repeat case_decide; try reflexivity;
      exfalso; apply Hnin; subst k; rewrite !elem_of_cons; auto.
Qed.

(** On a well-formed finding one iteration raises nothing and appends
    the finding to the bucket of its label, if there is such a bucket. *)
Lemma categorize_step_ok (cats : gmap pystr (list json)) (f : json) :
  finding_ok f →
  categorize_step cats f =
    Ret (match cats !! severity_label f with
         | Some b => <[severity_label f := b ++ [f]]> cats
         | None => cats
         end).
Proof.
  intros Hok. destruct f as [| | | | | |fields]; try (destruct Hok).
  unfold categorize_step, py_get, finding_ok, severity_label in *.
  destruct (dict_lookup fields severity_key) as [v|];
    [destruct v; try (destruct Hok)|]; cbn.
  - destruct (cats !! upper s); reflexivity.
  - rewrite upper_INFORMATIONAL. destruct (cats !! INFORMATIONAL); reflexivity.
Qed.

(** On any other value one iteration raises [AttributeError]. *)
Lemma categorize_step_bad (cats : gmap pystr (list json)) (f : json) :
  ¬ finding_ok f → categorize_step cats f = Raise AttributeError.
Proof.
  intros Hbad. destruct f as [| | | | | |fields]; try reflexivity.
  unfold categorize_step, py_get, finding_ok in *.
  destruct (dict_lookup fields severity_key) as [v|];
    [destruct v|]; cbn in *; try reflexivity; destruct Hbad; exact I.
Qed.

Lemma with_label_cons (k : pystr) (f : json) (fs : list json) :
  with_label k (f :: fs) =
    if decide (severity_label f = k) then f :: with_label k fs else with_label k fs.
Proof. unfold with_label. rewrite filter_cons. reflexivity. Qed.

(** The loop, started from any dictionary: each existing bucket receives
    the findings of its label, in input order, and no key is added. *)
Lemma categorize_loop (fs : list json) (cats : gmap pystr (list json)) :
  Forall finding_ok fs →
  ∃ cats', for_each categorize_step fs cats = Ret cats'
         ∧ ∀ k, cats' !! k = (λ b, b ++ with_label k fs) <$> cats !! k.
Proof.
  intros Hok. revert cats. induction Hok as [|f fs Hf _ IH]; intros cats.
  - exists cats. split; [reflexivity|]. intros k.
    destruct (cats !! k); simpl; [rewrite app_nil_r|]; reflexivity.
  - simpl. rewrite (categorize_step_ok _ _ Hf). simpl.
    destruct (IH (match cats !! severity_label f with
                  | Some b => <[severity_label f := b ++ [f]]> cats
                  | None => cats
                  end)) as (cats' & Hrun & Hlook).
    exists cats'. split; [exact Hrun|]. intros k.
    rewrite Hlook, with_label_cons.
    destruct (cats !! severity_label f) as [b|] eqn:Hb.
    + rewrite lookup_insert.
      destruct (decide (severity_label f = k)) as [Hk|Hk]; [|reflexivity].
      subst k. rewrite Hb. simpl. rewrite <- app_assoc. reflexivity.
    + destruct (decide (severity_label f = k)) as [Hk|Hk]; [|reflexivity].
      subst k. rewrite Hb. reflexivity.
Qed.

(** What [categorize_findings] returns on well-formed findings. *)
Lemma categorize_findings_spec (fs : list json) :
  Forall finding_ok fs →
  ∃ cats, categorize_findings fs = Ret cats
        ∧ ∀ k, cats !! k =
                 if decide (k ∈ bucket_labels) then Some (with_label k fs) else None.
Proof.
  intros Hok. destruct (categorize_loop fs empty_categories Hok) as (cats & Hrun & Hlook).
  exists cats. split; [exact Hrun|]. intros k.
  rewrite Hlook, lookup_empty_categories. case_decide; reflexivity.
Qed.

(** The first ill-formed finding stops the loop with [AttributeError]. *)
Lemma categorize_loop_raises (fs : list json) (cats : gmap pystr (list json)) :
  ¬ Forall finding_ok fs → for_each categorize_step fs cats = Raise AttributeError.
Proof.
  revert cats. induction fs as [|f fs IH]; intros cats Hbad.
  - destruct Hbad. constructor.
  - simpl. destruct (decide (finding_ok f)) as [Hf|Hf].
    + rewrite (categorize_step_ok _ _ Hf). simpl. apply IH.
      intros Hall. apply Hbad. constructor; assumption.
    + rewrite (categorize_step_bad _ _ Hf). reflexivity.
Qed.

Lemma categorize_findings_returns_ok (fs : list json) cats :
  categorize_findings fs = Ret cats → Forall finding_ok fs.
Proof.
  intros Hrun. destruct (decide (Forall finding_ok fs)) as [H|H]; [exact H|].
  unfold categorize_findings in Hrun.
  rewrite (categorize_loop_raises _ _ H) in Hrun. discriminate.
Qed.

Lemma elem_of_with_label (k : pystr) (f : json) (fs : list json) :
  f ∈ with_label k fs ↔ severity_label f = k ∧ f ∈ fs.
Proof. unfold with_label. rewrite list_elem_of_filter. reflexivity. Qed.

(** The label of a well-formed finding, read off its fields. *)
Lemma severity_label_fields (fields : list (pystr * json)) (label : pystr) :
  finding_ok (JDict fields) →
  severity_label (JDict fields) = label ↔
    (∃ s, dict_lookup fields severity_key = Some (JStr s) ∧ upper s = label)
    ∨ (dict_lookup fields severity_key = None ∧ label = INFORMATIONAL).
Proof.
  unfold finding_ok, severity_label.
  destruct (dict_lookup fields severity_key) as [v|]; [destruct v|];
    intros Hok; try (destruct Hok; fail); split.
  - intros <-. left. eauto.
  - intros [(s' & Hs & <-)|[Hs _]]; congruence.
  - intros <-. right. auto.
  - intros [(s' & Hs & _)|[_ ->]]; congruence.
Qed.

(** C1. On every list of findings (mappings whose severity, when present,
    is a string) [categorize_findings] returns a dictionary with exactly
    the four buckets CRITICAL, HIGH, MEDIUM and INFORMATIONAL. The bucket
    of a label holds, in input order, the findings whose severity in upper
    case is that label, a finding without severity counting as
    INFORMATIONAL; a finding whose upper-cased severity is none of the
    four labels is in no bucket. *)
Theorem categorize_findings_buckets (fs : list json) :
  Forall finding_ok fs →
  ∃ cats, categorize_findings fs = Ret cats
    ∧ (∀ k, is_Some (cats !! k) ↔ k ∈ bucket_labels)
    ∧ (∀ label, label ∈ bucket_labels →
         ∃ b, cats !! label = Some b
           ∧ b = filter (λ f, severity_label f = label) fs
           ∧ b `sublist_of` fs
           ∧ ∀ fields, JDict fields ∈ b ↔
               JDict fields ∈ fs ∧
               ((∃ s, dict_lookup fields severity_key = Some (JStr s) ∧ upper s = label)
                ∨ (dict_lookup fields severity_key = None ∧ label = INFORMATIONAL)))
    ∧ (∀ f, f ∈ fs → severity_label f ∉ bucket_labels →
         ∀ label b, cats !! label = Some b → f ∉ b).
Proof.
  intros Hok. destruct (categorize_findings_spec fs Hok) as (cats & Hrun & Hlook).
  exists cats. split; [exact Hrun|]. split; [|split].
  - intros k. rewrite Hlook. case_decide; split; intros H'; try assumption.
    + eexists; reflexivity.
    + destruct H' as [? ?]; discriminate.
    + contradiction.
  - intros label Hlabel. exists (with_label label fs). rewrite Hlook.
    rewrite decide_True by assumption. split; [reflexivity|]. split; [reflexivity|].
    split; [apply sublist_filter|].
    intros fields. rewrite elem_of_with_label. split.
    + intros [Hl Hin]. split; [exact Hin|].
      apply severity_label_fields; [|exact Hl].
      rewrite Forall_forall in Hok. apply Hok, Hin.
    + intros [Hin Hl]. split; [|exact Hin].
      apply severity_label_fields; [|exact Hl].
      rewrite Forall_forall in Hok. apply Hok, Hin.
  - intros f Hin Hnot label b Hb Hfb. rewrite Hlook in Hb.
    case_decide as Hlabel; [|discriminate]. injection Hb as <-.
    apply elem_of_with_label in Hfb as [<- _]. contradiction.
Qed.

Lemma categorize_findings_buckets_witness :
  Forall finding_ok [sample_critical; sample_low; sample_unlabelled]
  ∧ ∃ cats, categorize_findings [sample_critical; sample_low; sample_unlabelled] = Ret cats
      ∧ cats !! CRITICAL = Some [sample_critical]
      ∧ cats !! INFORMATIONAL = Some [sample_unlabelled].
Proof.
  assert (Hok : Forall finding_ok [sample_critical; sample_low; sample_unlabelled]).
  { repeat constructor. }
  split; [exact Hok|].
  destruct (categorize_findings_buckets _ Hok) as (cats & Hrun & _ & Hb & _).
  exists cats. split; [exact Hrun|]. split.
  - destruct (Hb CRITICAL) as (b & -> & -> & _); [|reflexivity].
    unfold bucket_labels. rewrite !elem_of_cons. auto.
  - destruct (Hb INFORMATIONAL) as (b & -> & -> & _); [|reflexivity].
    unfold bucket_labels. rewrite !elem_of_cons. auto 6.
Defined.

(** C2, counterexample. The finding [{"severity": "LOW"}] has a severity
    that is none of the four labels; the categorizer does not treat it
    as INFORMATIONAL: all four buckets come back empty. *)
Lemma low_severity_not_informational :
  categorize_findings [sample_low] = Ret empty_categories
  ∧ empty_categories !! INFORMATIONAL = Some []
  ∧ empty_categories !! CRITICAL = Some []
  ∧ empty_categories !! HIGH = Some []
  ∧ empty_categories !! MEDIUM = Some [].
Proof.
  split.
  - unfold categorize_findings. simpl.
    rewrite categorize_step_ok by exact I.
    replace (severity_label sample_low) with (U "LOW") by (vm_compute; reflexivity).
    rewrite lookup_empty_categories.
    rewrite decide_False; [reflexivity|].
    unfold bucket_labels. rewrite !elem_of_cons, elem_of_nil.
    intros [H|[H|[H|[H|[]]]]]; vm_compute in H; discriminate H.
  - rewrite !lookup_empty_categories.
    rewrite !decide_True; [auto| | | |];
      unfold bucket_labels; rewrite !elem_of_cons; auto 6.
Qed.

(** C2, amended. A finding whose upper-cased severity is none of the four
    labels is dropped: it is in no bucket. A finding whose label (its
    upper-cased severity, or INFORMATIONAL when it has no severity) is one
    of the four is in the bucket of that label and in no other. So every
    input finding lands in at most one bucket. *)
Theorem categorize_findings_at_most_one_bucket (fs : list json) :
  Forall finding_ok fs →
  ∃ cats, categorize_findings fs = Ret cats
    ∧ ∀ f, f ∈ fs →
        (severity_label f ∉ bucket_labels →
           ∀ label b, cats !! label = Some b → f ∉ b)
        ∧ (severity_label f ∈ bucket_labels →
           ∀ label b, cats !! label = Some b → f ∈ b ↔ label = severity_label f).
Proof.
  intros Hok. destruct (categorize_findings_spec fs Hok) as (cats & Hrun & Hlook).
  exists cats. split; [exact Hrun|]. intros f Hin. split.
  - intros Hnot label b Hb Hfb. rewrite Hlook in Hb.
    case_decide; [|discriminate]. injection Hb as <-.
    apply elem_of_with_label in Hfb as [<- _]. contradiction.
  - intros _ label b Hb. rewrite Hlook in Hb.
    case_decide; [|discriminate]. injection Hb as <-.
    rewrite elem_of_with_label. split; [intros [<- _]; reflexivity|].
    intros ->. auto.
Qed.

Lemma categorize_findings_at_most_one_bucket_witness :
  Forall finding_ok [sample_critical; sample_low]
  ∧ ∃ cats, categorize_findings [sample_critical; sample_low] = Ret cats
      ∧ ∀ label b, cats !! label = Some b → sample_low ∉ b.
Proof.
  assert (Hok : Forall finding_ok [sample_critical; sample_low]).
  { repeat constructor. }
  split; [exact Hok|].
  destruct (categorize_findings_at_most_one_bucket _ Hok) as (cats & Hrun & Hb).
  exists cats. split; [exact Hrun|].
  apply (Hb sample_low).
  - rewrite !elem_of_cons. auto.
  - replace (severity_label sample_low) with (U "LOW") by (vm_compute; reflexivity).
    unfold bucket_labels. rewrite !elem_of_cons, elem_of_nil.
    intros [H|[H|[H|[H|[]]]]]; vm_compute in H; discriminate H.
Defined.

(** C9. If the severity key of some finding maps to a value that is not a
    string, [categorize_findings] does not return: the call of [upper]
    raises [AttributeError], which nothing in the function catches, and
    no dictionary of buckets is produced. *)
Theorem categorize_findings_non_string_severity
    (fs : list json) (fields : list (pystr * json)) (v : json) :
  JDict fields ∈ fs →
  dict_lookup fields severity_key = Some v →
  (∀ s, v ≠ JStr s) →
  categorize_findings fs = Raise AttributeError.
Proof.
  intros Hin Hv Hns. apply categorize_loop_raises. intros Hall.
  rewrite Forall_forall in Hall. specialize (Hall _ Hin).
  unfold finding_ok in Hall. rewrite Hv in Hall.
  destruct v; try exact Hall. exact (Hns _ eq_refl).
Qed.

Lemma categorize_findings_non_string_severity_witness :
  sample_numeric ∈ [sample_critical; sample_numeric]
  ∧ dict_lookup [(severity_key, JInt 5)] severity_key = Some (JInt 5)
  ∧ (∀ s, JInt 5 ≠ JStr s)
  ∧ categorize_findings [sample_critical; sample_numeric] = Raise AttributeError.
Proof.
  assert (H1 : sample_numeric ∈ [sample_critical; sample_numeric]).
  { rewrite !elem_of_cons. auto. }
  assert (H2 : dict_lookup [(severity_key, JInt 5)] severity_key = Some (JInt 5)).
  { reflexivity. }
  assert (H3 : ∀ s, JInt 5 ≠ JStr s) by discriminate.
  split; [exact H1|]. split; [exact H2|]. split; [exact H3|].
  exact (categorize_findings_non_string_severity _ _ _ H1 H2 H3).
Defined.

(** ** The loader *)

Section Loader.

Variable w : World.
Variable tr : trace.
Variable dir : pystr.

(** Whether an entry is processed without an exception does not depend
    on the findings gathered so far, which it only extends. *)
Lemma load_file_acc (name : pystr) (findings : list json) :
  load_file w tr dir name findings =
    items ← load_file w tr dir name []; Ret (findings ++ items).
Proof.
  unfold load_file.
  destruct (endswith name (U ".json")); cbn; [|rewrite app_nil_r; reflexivity].
  destruct (load_json w tr (path_join dir name)) as [data|e]; cbn; [|reflexivity].
  destruct (py_contains data rule_detections) as [[]|e]; cbn;
    [| rewrite app_nil_r; reflexivity | reflexivity].
  destruct (py_getitem data rule_detections) as [value|e]; cbn; [|reflexivity].
  destruct (py_iter value) as [items|e]; cbn; reflexivity.
Qed.

(** The entries before the first failing one are all taken in. *)
Lemma load_files_app (pre rest : list pystr) (findings : list json) :
  Forall (λ name, returns (load_file w tr dir name [])) pre →
  load_files w tr dir (pre ++ rest) findings =
    load_files w tr dir rest (findings ++ concat (map (contribution w tr dir) pre)).
Proof.
  intros Hpre. revert findings. induction Hpre as [|name pre [items Hname] _ IH];
    intros findings; simpl.
  - rewrite app_nil_r. reflexivity.
  - rewrite load_file_acc. unfold contribution at 1. rewrite Hname. cbn.
    rewrite IH, <- app_assoc. reflexivity.
Qed.

Lemma load_files_raise (bad : pystr) (post : list pystr) (findings : list json) (e : exn) :
  load_file w tr dir bad [] = Raise e →
  load_files w tr dir (bad :: post) findings = (findings, Some e).
Proof. intros Hbad. simpl. rewrite load_file_acc, Hbad. reflexivity. Qed.

(** An entry that is not a dict with the key [rule_detections] adds
    nothing. *)
Lemma contribution_without_key (name : pystr) :
  (∀ fields, load_json w tr (path_join dir name) = Ret (JDict fields) →
             dict_lookup fields rule_detections = None) →
  ∀ findings findings',
    load_file w tr dir name findings = Ret findings' → findings' = findings.
Proof.
  intros Hkey findings findings'. unfold load_file.
  destruct (endswith name (U ".json")); [|congruence].
  destruct (load_json w tr (path_join dir name)) as [data|e]; cbn; [|discriminate].
  destruct data as [| | | |s|items|fields]; cbn; try discriminate.
  - destruct (str_contains s rule_detections); cbn; congruence.
  - destruct (existsb _ items); cbn; congruence.
  - rewrite (Hkey fields eq_refl). cbn. congruence.
Qed.

End Loader.

(** C3, counterexample. The second file of [world_partial] cannot be
    parsed, yet the loader returns the finding read from the first file,
    not the empty list. *)
Lemma load_keeps_earlier_findings :
  load_json world_partial [] (path_join results_path (U "b.json")) = Raise ValueError
  ∧ load_security_findings world_partial results_path [] = (Ret [sample_critical], [])
  ∧ [sample_critical] ≠ [].
Proof.
  split; [vm_compute; reflexivity|]. split; [vm_compute; reflexivity|]. discriminate.
Qed.

(** C3, amended. A failure while the results directory is enumerated or
    one of its files is read or parsed is caught: the loader raises
    nothing and performs no action. If the directory cannot be listed it
    returns the empty list; if the failure happens at a file, it returns
    the findings of the files processed before that file. *)
Theorem load_security_findings_failure (w : World) (tr : trace) (dir : pystr) :
  (∀ e, listdir w tr dir = Raise e →
        load_security_findings w dir tr = (Ret [], tr))
  ∧ (∀ pre bad post e,
        listdir w tr dir = Ret (pre ++ bad :: post) →
        Forall (λ name, returns (load_file w tr dir name [])) pre →
        load_file w tr dir bad [] = Raise e →
        load_security_findings w dir tr =
          (Ret (concat (map (contribution w tr dir) pre)), tr)).
Proof.
  split.
  - intros e He. unfold load_security_findings. rewrite He. reflexivity.
  - intros pre bad post e Hls Hpre Hbad. unfold load_security_findings.
    rewrite Hls, (load_files_app w tr dir pre (bad :: post) [] Hpre).
    rewrite (load_files_raise w tr dir bad post _ e Hbad). reflexivity.
Qed.

Lemma load_security_findings_failure_witness :
  listdir world_partial [] results_path = Ret ([U "a.json"] ++ U "b.json" :: [])
  ∧ Forall (λ name, returns (load_file world_partial [] results_path name [])) [U "a.json"]
  ∧ load_file world_partial [] results_path (U "b.json") [] = Raise ValueError
  ∧ load_security_findings world_partial results_path [] =
      (Ret (concat (map (contribution world_partial [] results_path) [U "a.json"])), []).
Proof.
  assert (H1 : listdir world_partial [] results_path = Ret ([U "a.json"] ++ U "b.json" :: []))
    by reflexivity.
  assert (H2 : Forall (λ name, returns (load_file world_partial [] results_path name []))
                 [U "a.json"]).
  { constructor; [|constructor]. eexists. vm_compute. reflexivity. }
  assert (H3 : load_file world_partial [] results_path (U "b.json") [] = Raise ValueError)
    by (vm_compute; reflexivity).
  split; [exact H1|]. split; [exact H2|]. split; [exact H3|].
  exact (proj2 (load_security_findings_failure world_partial [] results_path)
           _ _ _ _ H1 H2 H3).
Defined.

(** C8. If no file of the results directory whose name ends in [.json]
    parses to an object with the key [rule_detections], the loader
    returns the empty list. *)
Theorem load_without_rule_detections (w : World) (tr : trace) (dir : pystr) :
  (∀ names name fields,
     listdir w tr dir = Ret names → name ∈ names →
     endswith name (U ".json") = true →
     load_json w tr (path_join dir name) = Ret (JDict fields) →
     dict_lookup fields rule_detections = None) →
  load_security_findings w dir tr = (Ret [], tr).
Proof.
  intros Hkey. unfold load_security_findings.
  destruct (listdir w tr dir) as [names|e]; [|reflexivity].
  assert (Hk : ∀ name fields, name ∈ names →
                 endswith name (U ".json") = true →
                 load_json w tr (path_join dir name) = Ret (JDict fields) →
                 dict_lookup fields rule_detections = None).
  { intros name fields. apply Hkey. reflexivity. }
  clear Hkey.
  assert (Hnil : (load_files w tr dir names []).1 = []); [|rewrite Hnil; reflexivity].
  induction names as [|name names IH]; [reflexivity|]. simpl.
  destruct (load_file w tr dir name []) as [findings'|e] eqn:Hname; [|reflexivity].
  assert (findings' = []) as ->.
  { destruct (endswith name (U ".json")) eqn:Hext.
    - apply (contribution_without_key w tr dir name) with (findings := []) in Hname;
        [exact Hname|].
      intros fields Hload. apply (Hk name fields); try assumption.
      rewrite elem_of_cons. auto.
    - unfold load_file in Hname. rewrite Hext in Hname. congruence. }
  apply IH. intros name' fields Hin. apply Hk.
  rewrite elem_of_cons. auto.
Qed.

Lemma load_without_rule_detections_witness :
  (∀ names name fields,
     listdir world_no_detections [] results_path = Ret names → name ∈ names →
     endswith name (U ".json") = true →
     load_json world_no_detections [] (path_join results_path name) = Ret (JDict fields) →
     dict_lookup fields rule_detections = None)
  ∧ load_security_findings world_no_detections results_path [] = (Ret [], []).
Proof.
  assert (H : ∀ names name fields,
     listdir world_no_detections [] results_path = Ret names → name ∈ names →
     endswith name (U ".json") = true →
     load_json world_no_detections [] (path_join results_path name) = Ret (JDict fields) →
     dict_lookup fields rule_detections = None).
  { intros names name fields _ _ _. cbn.
    destruct (pystr_eqb _ _); intros [= <-]; reflexivity. }
  split; [exact H|].
  exact (load_without_rule_detections world_no_detections [] results_path H).
Defined.

(** ** The pull-request description *)

Section BodyText.

Variables py_title py_lower : pystr → pystr.
Variable py_repr : json → pystr.

Lemma finding_line_dict (n : nat) (f : json) :
  is_dict f → finding_line py_repr (N.of_nat n) f = Ret (numbered_entry py_repr n f).
Proof. intros H. destruct f; try (destruct H; fail). reflexivity. Qed.

Lemma findings_loop_entries (fs : list json) (n : nat) (body : pystr) :
  Forall is_dict fs →
  findings_loop py_repr (N.of_nat n) fs body =
    Ret (body ++ concat (imap (λ i f, numbered_entry py_repr (n + i) f) fs)).
Proof.
  intros Hfs. revert n body. induction Hfs as [|f fs Hf _ IH]; intros n body.
  - simpl. rewrite app_nil_r. reflexivity.
  - cbn [findings_loop]. rewrite (finding_line_dict n f Hf). cbn [mbind outcome_bind].
    replace (N.of_nat n + 1)%N with (N.of_nat (S n)) by lia.
    rewrite IH, imap_cons. cbn [concat]. rewrite Nat.add_0_r, <- app_assoc.
    do 4 f_equal. apply imap_ext. intros i x _. cbn. f_equal. lia.
Qed.

Lemma fixes_loop_bullets (fixes : list pystr) (body : pystr) :
  fixes_loop fixes body = body ++ concat (map fix_line fixes).
Proof.
  unfold fixes_loop. revert body. induction fixes as [|fx fixes IH]; intros body; simpl.
  - rewrite app_nil_r. reflexivity.
  - rewrite IH, <- app_assoc. reflexivity.
Qed.

(** C5. [generate_pr_body] is a function of its three arguments alone: it
    reads no state and acts on nothing, so equal arguments give the same
    string. For findings that are dicts the string is the heading, then
    one entry per finding, the [i]-th finding of the input (counting from
    one) numbered [i], in input order, then the heading of the fixes, one
    bullet per element of [fixes_applied] in order, and the fixed tail. *)
Theorem generate_pr_body_enumerates
    (severity : pystr) (findings : list json) (fixes : list pystr) :
  Forall is_dict findings →
  generate_pr_body py_title py_lower py_repr severity findings fixes =
    Ret (body_head py_title py_lower severity (length findings)
           ++ concat (imap (λ i f, numbered_entry py_repr (S i) f) findings)
           ++ fixes_heading
           ++ concat (map fix_line fixes)
           ++ body_tail)
  ∧ ∀ severity' findings' fixes',
      severity' = severity → findings' = findings → fixes' = fixes →
      generate_pr_body py_title py_lower py_repr severity' findings' fixes' =
        generate_pr_body py_title py_lower py_repr severity findings fixes.
Proof.
  intros Hfs. split; [|intros ? ? ? -> -> ->; reflexivity].
  unfold generate_pr_body.
  rewrite (findings_loop_entries findings 1 _ Hfs). cbn [mbind outcome_bind].
  rewrite fixes_loop_bullets, <- !app_assoc. reflexivity.
Qed.

End BodyText.

Lemma generate_pr_body_enumerates_witness :
  Forall is_dict [sample_critical; sample_unlabelled]
  ∧ generate_pr_body id id (λ _, []) CRITICAL [sample_critical; sample_unlabelled]
      [U "Block public access"] =
    Ret (body_head id id CRITICAL 2
           ++ (U "1. **S3 bucket is public**: Security issue detected" ++ [10])
           ++ (U "2. **Logging disabled**: Security issue detected" ++ [10])
           ++ fixes_heading
           ++ (U "- Block public access" ++ [10])
           ++ body_tail).
Proof.
  assert (H : Forall is_dict [sample_critical; sample_unlabelled]).
  { repeat constructor. }
  split; [exact H|].
  rewrite (proj1 (generate_pr_body_enumerates id id (λ _, []) CRITICAL
                    [sample_critical; sample_unlabelled] [U "Block public access"] H)).
  vm_compute. reflexivity.
Defined.

(** ** The workflow *)

Section Workflow.

Variable w : World.
Variables py_title py_lower : pystr → pystr.
Variable py_repr : json → pystr.

Lemma load_security_findings_eq (tr : trace) :
  load_security_findings w results_path tr = (Ret (findings_on_disk w tr), tr).
Proof.
  unfold load_security_findings, findings_on_disk.
  destruct (listdir w tr results_path); reflexivity.
Qed.

Lemma critical_and_high_nil (fs : list json) :
  critical_and_high fs = [] ↔
  ∀ f, f ∈ fs → severity_label f ≠ CRITICAL ∧ severity_label f ≠ HIGH.
Proof.
  unfold critical_and_high. split.
  - intros Hnil f Hin. apply app_eq_nil in Hnil as [Hc Hh].
    split; intros Hl.
    + assert (Hf : f ∈ with_label CRITICAL fs) by (apply elem_of_with_label; auto).
      rewrite Hc in Hf. apply elem_of_nil in Hf. exact Hf.
    + assert (Hf : f ∈ with_label HIGH fs) by (apply elem_of_with_label; auto).
      rewrite Hh in Hf. apply elem_of_nil in Hf. exact Hf.
  - intros Hno.
    assert (Hempty : ∀ k, (k = CRITICAL ∨ k = HIGH) → with_label k fs = []).
    { intros k Hk. apply elem_of_nil_inv. intros f Hf.
      apply elem_of_with_label in Hf as [Hl Hin].
      destruct (Hno f Hin) as [Hc Hh]. destruct Hk; congruence. }
    rewrite (Hempty CRITICAL), (Hempty HIGH); auto.
Qed.

Lemma critical_and_high_dicts (fs : list json) :
  Forall finding_ok fs → Forall is_dict (critical_and_high fs).
Proof.
  intros Hok. unfold critical_and_high. rewrite Forall_forall in *.
  intros f Hf. apply elem_of_app in Hf.
  assert (Hin : f ∈ fs).
  { destruct Hf as [Hf|Hf]; apply elem_of_with_label in Hf; tauto. }
  specialize (Hok f Hin). destruct f; try (destruct Hok; fail). exact I.
Qed.

(** [main] on a run with nothing to remediate. *)
Lemma main_noop (tr : trace) :
  nothing_to_remediate w tr → main w py_title py_lower py_repr tr = (Ret 0%Z, tr).
Proof.
  intros [Hmissing|[Hok Hnone]]; unfold main, bind.
  - unfold os_path_exists. rewrite Hmissing. reflexivity.
  - unfold os_path_exists. destruct (path_exists w tr results_path); [|reflexivity].
    cbn [negb]. rewrite load_security_findings_eq.
    destruct (categorize_findings_spec _ Hok) as (cats & Hrun & Hlook).
    unfold lift. rewrite Hrun.
    case_bool_decide; [reflexivity|].
    unfold bucket. rewrite !Hlook.
    rewrite !decide_True by (unfold bucket_labels; rewrite !elem_of_cons; auto).
    apply critical_and_high_nil in Hnone. unfold critical_and_high in Hnone.
    rewrite Hnone. reflexivity.
Qed.

(** [main] on a run that reaches the remediation path. *)
Lemma main_remediation (tr : trace) :
  needs_remediation w tr →
  main w py_title py_lower py_repr tr =
    finish (remediate w py_title py_lower py_repr
              (critical_and_high (findings_on_disk w tr)) tr).
Proof.
  intros (Hexists & Hok & f & Hin & Hlabel). unfold main, bind.
  unfold os_path_exists. rewrite Hexists. cbn [negb].
  rewrite load_security_findings_eq.
  destruct (categorize_findings_spec _ Hok) as (cats & Hrun & Hlook).
  unfold lift. rewrite Hrun.
  rewrite bool_decide_eq_false_2
    by (intros Hnil; rewrite Hnil in Hin; apply elem_of_nil in Hin; exact Hin).
  unfold bucket. rewrite !Hlook.
  rewrite !decide_True by (unfold bucket_labels; rewrite !elem_of_cons; auto).
  fold (critical_and_high (findings_on_disk w tr)).
  rewrite bool_decide_eq_false_2.
  - unfold finish.
    destruct (remediate w py_title py_lower py_repr _ tr) as [[[code|]|e] tr'];
      reflexivity.
  - intros Hnil. rewrite critical_and_high_nil in Hnil.
    destruct (Hnil f Hin) as [Hc Hh]. destruct Hlabel; contradiction.
Qed.

(** [main] on findings the categorizer cannot file. *)
Lemma main_ill_formed (tr : trace) :
  path_exists w tr results_path = true →
  ¬ Forall finding_ok (findings_on_disk w tr) →
  main w py_title py_lower py_repr tr = (Raise AttributeError, tr).
Proof.
  intros Hexists Hbad. unfold main, bind.
  unfold os_path_exists. rewrite Hexists. cbn [negb].
  rewrite load_security_findings_eq. unfold lift, categorize_findings.
  rewrite (categorize_loop_raises _ _ Hbad). reflexivity.
Qed.

(** Every run is of one of the three kinds. *)
Lemma run_kinds (tr : trace) :
  nothing_to_remediate w tr
  ∨ needs_remediation w tr
  ∨ (path_exists w tr results_path = true ∧ ¬ Forall finding_ok (findings_on_disk w tr)).
Proof.
  unfold nothing_to_remediate, needs_remediation.
  destruct (path_exists w tr results_path); [|auto].
  destruct (decide (Forall finding_ok (findings_on_disk w tr))) as [Hok|Hbad]; [|auto].
  destruct (decide (critical_and_high (findings_on_disk w tr) = [])) as [Hnil|Hne].
  - left. right. split; [exact Hok|]. apply critical_and_high_nil, Hnil.
  - right. left. split; [reflexivity|]. split; [exact Hok|].
    unfold critical_and_high in Hne.
    destruct (with_label CRITICAL (findings_on_disk w tr)) as [|f l] eqn:Hc.
    + destruct (with_label HIGH (findings_on_disk w tr)) as [|f l] eqn:Hh;
        [contradiction|].
      exists f. assert (Hf : f ∈ with_label HIGH (findings_on_disk w tr))
        by (rewrite Hh; apply list_elem_of_here).
      apply elem_of_with_label in Hf. tauto.
    + exists f. assert (Hf : f ∈ with_label CRITICAL (findings_on_disk w tr))
        by (rewrite Hc; apply list_elem_of_here).
      apply elem_of_with_label in Hf. tauto.
Qed.

Lemma generate_pr_body_returns (severity : pystr) (fs : list json) (fixes : list pystr) :
  Forall is_dict fs →
  generate_pr_body py_title py_lower py_repr severity fs fixes =
    Ret (match generate_pr_body py_title py_lower py_repr severity fs fixes with
         | Ret body => body
         | Raise _ => []
         end).
Proof.
  intros Hfs. unfold generate_pr_body.
  rewrite (findings_loop_entries py_repr fs 1 _ Hfs). reflexivity.
Qed.

(** Follow the script through the answers of the world, in the order
    the actions are attempted, starting after the trace [t]. *)
Ltac follow t :=
  cbn -[U app];
  first
    [ match goal with
      | |- context [path_exists ?w' t ?p] =>
          destruct (path_exists w' t p) eqn:?; follow t
      end
    | match goal with
      | |- context [run_process ?w' t ?a] =>
          destruct (run_process w' t a) as [?|[]] eqn:?; follow (t ++ [Run a])
      end
    | match goal with
      | |- context [copy_file ?w' t ?a ?b] =>
          destruct (copy_file w' t a b) as [[]|[]] eqn:?; follow (t ++ [Copy2 a b])
      end
    | idtac ].

Ltac unfold_script :=
  unfold remediate, create_fix_branch, apply_critical_fixes, push_branch,
    create_pull_request, try_except, bind, ret, lift, subprocess_run, shutil_copy2,
    os_path_exists, finish.

Ltac unfold_steps :=
  unfold base_checked_out, branch_created, fixes_committed, template_present,
    branch_pushed, pull_request_opened, step_ok, succeeds, run_pipeline, pipeline,
    after, checkout_main, checkout_fix_branch, copy_template, stage_fix, commit_fix,
    push_fix_branch, open_pull_request.

Lemma remediate_exit_status (tr : trace) :
  Forall finding_ok (findings_on_disk w tr) →
  base_checked_out w py_title py_lower py_repr tr = true →
  exit_status (finish (remediate w py_title py_lower py_repr
                         (critical_and_high (findings_on_disk w tr)) tr)).1 =
    if branch_created w py_title py_lower py_repr tr
       && fixes_committed w py_title py_lower py_repr tr
       && branch_pushed w py_title py_lower py_repr tr
       && pull_request_opened w py_title py_lower py_repr tr
    then 0%Z else 1%Z.
Proof.
  intros Hok. apply critical_and_high_dicts in Hok.
  unfold_steps. unfold_script.
  rewrite (generate_pr_body_returns _ _ fixes_applied Hok).
  fold (pr_body py_title py_lower py_repr (critical_and_high (findings_on_disk w tr))).
  fold (pr_title (critical_and_high (findings_on_disk w tr))).
  generalize (pr_body py_title py_lower py_repr (critical_and_high (findings_on_disk w tr))).
  generalize (pr_title (critical_and_high (findings_on_disk w tr))).
  intros title body.
  follow tr; intros Hbase; first [reflexivity | discriminate Hbase].
Qed.

Lemma after_app (tr : trace) (es : list event) : after tr es = tr ++ es.
Proof.
  unfold after. revert tr. induction es as [|e es IH]; intros tr; simpl.
  - rewrite app_nil_r. reflexivity.
  - rewrite IH, <- app_assoc. reflexivity.
Qed.

(** Whatever the world answers, the remediation path performs the
    actions of the pipeline in order, up to some point. *)
Lemma remediate_trace (tr : trace) :
  Forall finding_ok (findings_on_disk w tr) →
  ∃ n, (remediate w py_title py_lower py_repr
          (critical_and_high (findings_on_disk w tr)) tr).2 =
       after tr (take n (run_pipeline w py_title py_lower py_repr tr)).
Proof.
  intros Hok. apply critical_and_high_dicts in Hok.
  unfold_steps. unfold_script.
  rewrite (generate_pr_body_returns _ _ fixes_applied Hok).
  fold (pr_body py_title py_lower py_repr (critical_and_high (findings_on_disk w tr))).
  fold (pr_title (critical_and_high (findings_on_disk w tr))).
  generalize (pr_body py_title py_lower py_repr (critical_and_high (findings_on_disk w tr))).
  generalize (pr_title (critical_and_high (findings_on_disk w tr))).
  intros title body.
  follow tr;
    first [ exists 0%nat; reflexivity | exists 1%nat; reflexivity
          | exists 2%nat; reflexivity | exists 3%nat; reflexivity
          | exists 4%nat; reflexivity | exists 5%nat; reflexivity
          | exists 6%nat; reflexivity | exists 7%nat; reflexivity ].
Qed.

Lemma finish_trace (r : outcome (option Z) * trace) : (finish r).2 = r.2.
Proof. destruct r as [[[?|]|?] ?]; reflexivity. Qed.

(** C7, amended. When the results directory is missing, and when every
    loaded finding is a mapping whose severity is absent or a string and
    none of them (there may be none at all) is CRITICAL or HIGH, [main]
    returns 0 and the trace of actions is left as it was: no checkout,
    no branch, no copy, no commit, no push and no pull request. When
    some loaded element is not such a mapping, [main] does not return 0:
    the [AttributeError] of the categorizer leaves it; the trace of
    actions is left as it was in this case too. *)
Theorem main_without_critical_or_high (tr : trace) :
  (path_exists w tr results_path = false →
     main w py_title py_lower py_repr tr = (Ret 0%Z, tr))
  ∧ (Forall finding_ok (findings_on_disk w tr) →
     (∀ f, f ∈ findings_on_disk w tr →
           severity_label f ≠ CRITICAL ∧ severity_label f ≠ HIGH) →
     main w py_title py_lower py_repr tr = (Ret 0%Z, tr))
  ∧ (path_exists w tr results_path = true →
     ¬ Forall finding_ok (findings_on_disk w tr) →
     main w py_title py_lower py_repr tr = (Raise AttributeError, tr)).
Proof.
  split; [|split].
  - intros Hmissing. apply main_noop. left. exact Hmissing.
  - intros Hok Hnone. apply main_noop. right. split; assumption.
  - apply main_ill_formed.
Qed.

(** C4, the code at the failing input. On a run that reaches the
    remediation path, an exception raised by [git checkout main] (for a
    non-zero exit status, [CalledProcessError]) is caught nowhere: [main]
    does not return an exit code, the exception leaves it. *)
Theorem main_checkout_failure_uncaught (tr : trace) (e : exn) :
  needs_remediation w tr →
  run_process w tr [U "git"; U "checkout"; U "main"] = Raise e →
  main w py_title py_lower py_repr tr = (Raise e, tr ++ [checkout_main]).
Proof.
  intros Hneeds Hfail. rewrite (main_remediation tr Hneeds).
  unfold_script. unfold checkout_main. rewrite Hfail. reflexivity.
Qed.

(** C6. The exit status of the process is 0 when there is nothing to
    remediate. On a run that reaches the remediation path, with the base
    branch checked out, it is 0 when the branch is created, the fixes
    are copied, staged and committed, the branch is pushed and the pull
    request is opened, and 1 as soon as one of these fails; in particular
    it is 1 when the remediation template is absent. *)
Theorem exit_status_of_run (tr : trace) :
  (nothing_to_remediate w tr →
     exit_status (main w py_title py_lower py_repr tr).1 = 0%Z)
  ∧ (needs_remediation w tr → base_checked_out w py_title py_lower py_repr tr = true →
       exit_status (main w py_title py_lower py_repr tr).1 =
         if branch_created w py_title py_lower py_repr tr
            && fixes_committed w py_title py_lower py_repr tr
            && branch_pushed w py_title py_lower py_repr tr
            && pull_request_opened w py_title py_lower py_repr tr
         then 0%Z else 1%Z)
  ∧ (needs_remediation w tr → base_checked_out w py_title py_lower py_repr tr = true →
       template_present w py_title py_lower py_repr tr = false →
       exit_status (main w py_title py_lower py_repr tr).1 = 1%Z).
Proof.
  assert (Hsteps : needs_remediation w tr →
       base_checked_out w py_title py_lower py_repr tr = true →
       exit_status (main w py_title py_lower py_repr tr).1 =
         if branch_created w py_title py_lower py_repr tr
            && fixes_committed w py_title py_lower py_repr tr
            && branch_pushed w py_title py_lower py_repr tr
            && pull_request_opened w py_title py_lower py_repr tr
         then 0%Z else 1%Z).
  { intros Hneeds Hbase. rewrite (main_remediation tr Hneeds).
    apply remediate_exit_status; [apply Hneeds | exact Hbase]. }
  split; [|split].
  - intros Hnoop. rewrite (main_noop tr Hnoop). reflexivity.
  - exact Hsteps.
  - intros Hneeds Hbase Habsent. rewrite (Hsteps Hneeds Hbase).
    unfold fixes_committed. rewrite Habsent.
    destruct (branch_created w py_title py_lower py_repr tr); reflexivity.
Qed.

(** The pipeline names a branch in three places only: the action that
    creates the branch, the push, and the head of the pull request. *)
Lemma pipeline_branch_names (branch title body : pystr) (e : event) :
  e ∈ pipeline branch title body →
  (∀ name, e = checkout_fix_branch name → name = branch)
  ∧ (∀ name, e = push_fix_branch name → name = branch)
  ∧ (∀ head title' body', e = open_pull_request head title' body' → head = branch).
Proof.
  unfold pipeline. rewrite !elem_of_cons, elem_of_nil.
  intros [->|[->|[->|[->|[->|[->|[->|[]]]]]]]];
    (split; [|split]); intros; try discriminate.
  all: match goal with H : _ = _ |- _ => injection H end.
  all: intros; subst; reflexivity.
Qed.

(** On the remediation path an action is attempted as soon as the ones
    before it have succeeded (and, from the copy on, the template is
    there): the trace reaches beyond it. *)
Lemma main_attempts (tr : trace) (n : nat) :
  needs_remediation w tr →
  steps_ok_before w py_title py_lower py_repr tr n = true →
  ((n <? 2)%nat || template_present w py_title py_lower py_repr tr) = true →
  (n < 7)%nat →
  ∃ m, (S n ≤ m)%nat
       ∧ (main w py_title py_lower py_repr tr).2 =
           after tr (take m (run_pipeline w py_title py_lower py_repr tr)).
Proof.
  intros Hneeds. rewrite (main_remediation tr Hneeds), finish_trace.
  destruct Hneeds as (_ & Hok & _). apply critical_and_high_dicts in Hok.
  intros Hbefore Htemplate Hn. revert Hbefore Htemplate.
  unfold steps_ok_before. unfold_steps. unfold_script.
  rewrite (generate_pr_body_returns _ _ fixes_applied Hok).
  fold (pr_body py_title py_lower py_repr (critical_and_high (findings_on_disk w tr))).
  fold (pr_title (critical_and_high (findings_on_disk w tr))).
  generalize (pr_body py_title py_lower py_repr (critical_and_high (findings_on_disk w tr))).
  generalize (pr_title (critical_and_high (findings_on_disk w tr))).
  intros title body.
  destruct n as [|[|[|[|[|[|[|n]]]]]]]; try lia;
    follow tr; intros Hbefore Htemplate;
    first [ discriminate Hbefore | discriminate Htemplate
          | exists 1%nat; split; [lia | reflexivity]
          | exists 2%nat; split; [lia | reflexivity]
          | exists 3%nat; split; [lia | reflexivity]
          | exists 4%nat; split; [lia | reflexivity]
          | exists 5%nat; split; [lia | reflexivity]
          | exists 6%nat; split; [lia | reflexivity]
          | exists 7%nat; split; [lia | reflexivity] ].
Qed.

(** C10. Whatever the findings and whatever the world answers, the
    actions [main] performs are an initial part of the fixed pipeline in
    which the branch created, the branch pushed and the head branch of
    the pull request are all [security-fixes/critical-high-remediation]:
    every branch creation, push or pull request among the actions of a
    run names that branch. And a run that reaches the remediation path
    does use it: once the base branch is checked out, the second action
    creates the branch of that name; once the actions up to the commit
    have succeeded, the sixth action pushes the branch of that name;
    once the push has succeeded too, the seventh action opens the pull
    request with that branch as head. *)
Theorem fix_branch_name_is_constant (tr : trace) :
  ∃ events title body,
    (main w py_title py_lower py_repr tr).2 = tr ++ events
    ∧ events `prefix_of`
        pipeline (U "security-fixes/critical-high-remediation") title body
    ∧ (∀ e, e ∈ events →
        (∀ name, e = checkout_fix_branch name →
                 name = U "security-fixes/critical-high-remediation")
        ∧ (∀ name, e = push_fix_branch name →
                   name = U "security-fixes/critical-high-remediation")
        ∧ (∀ head title' body', e = open_pull_request head title' body' →
                   head = U "security-fixes/critical-high-remediation"))
    ∧ (needs_remediation w tr →
       base_checked_out w py_title py_lower py_repr tr = true →
       events !! 1%nat
         = Some (checkout_fix_branch (U "security-fixes/critical-high-remediation")))
    ∧ (needs_remediation w tr →
       steps_ok_before w py_title py_lower py_repr tr 5 = true →
       template_present w py_title py_lower py_repr tr = true →
       events !! 5%nat
         = Some (push_fix_branch (U "security-fixes/critical-high-remediation")))
    ∧ (needs_remediation w tr →
       steps_ok_before w py_title py_lower py_repr tr 6 = true →
       template_present w py_title py_lower py_repr tr = true →
       events !! 6%nat
         = Some (open_pull_request (U "security-fixes/critical-high-remediation")
                   title body)).
Proof.
  assert (Hnone : ∀ e : event, e ∈ [] →
        (∀ name, e = checkout_fix_branch name →
                 name = U "security-fixes/critical-high-remediation")
        ∧ (∀ name, e = push_fix_branch name →
                   name = U "security-fixes/critical-high-remediation")
        ∧ (∀ head title' body', e = open_pull_request head title' body' →
                   head = U "security-fixes/critical-high-remediation")).
  { intros e He. apply elem_of_nil in He. destruct He. }
  destruct (run_kinds tr) as [Hnoop|[Hneeds|[Hexists Hbad]]].
  - assert (Hno : ¬ needs_remediation w tr).
    { intros (Hexists & Hok & f & Hin & Hlabel).
      destruct Hnoop as [Hmissing|[_ Hnone']]; [congruence|].
      destruct (Hnone' f Hin) as [Hc Hh]. destruct Hlabel; contradiction. }
    exists [], [], []. rewrite (main_noop tr Hnoop), app_nil_r.
    split; [reflexivity|]. split; [apply prefix_nil|]. split; [exact Hnone|].
    split; [|split]; intros Hyes; destruct (Hno Hyes).
  - destruct (remediate_trace tr) as [n Hn]; [apply Hneeds|].
    assert (Hevents : ∀ k, (k < 7)%nat →
              steps_ok_before w py_title py_lower py_repr tr k = true →
              ((k <? 2)%nat || template_present w py_title py_lower py_repr tr) = true →
              take n (run_pipeline w py_title py_lower py_repr tr) !! k
                = run_pipeline w py_title py_lower py_repr tr !! k).
    { intros k Hk Hbefore Htemplate.
      destruct (main_attempts tr k Hneeds Hbefore Htemplate Hk) as (m & Hm & Htrace).
      rewrite (main_remediation tr Hneeds), finish_trace, Hn, !after_app in Htrace.
      apply app_inv_head in Htrace. rewrite Htrace. apply lookup_take_lt. lia. }
    exists (take n (run_pipeline w py_title py_lower py_repr tr)),
      (pr_title (critical_and_high (findings_on_disk w tr))),
      (pr_body py_title py_lower py_repr (critical_and_high (findings_on_disk w tr))).
    rewrite (main_remediation tr Hneeds), finish_trace, Hn, after_app.
    split; [reflexivity|].
    split; [unfold run_pipeline, branch_name; apply prefix_take|].
    split; [|split; [|split]].
    + unfold run_pipeline, branch_name.
      intros e He. apply elem_of_take in He as (i & Hi & _).
      apply list_elem_of_lookup_2 in Hi.
      exact (pipeline_branch_names (U "security-fixes/critical-high-remediation")
               (pr_title (critical_and_high (findings_on_disk w tr)))
               (pr_body py_title py_lower py_repr (critical_and_high (findings_on_disk w tr)))
               e Hi).
    + intros _ Hbase. rewrite (Hevents 1%nat); [unfold run_pipeline, branch_name; reflexivity|lia| |reflexivity].
      unfold steps_ok_before. cbn [seq forallb]. fold (base_checked_out w py_title py_lower py_repr tr).
      rewrite Hbase. reflexivity.
    + intros _ Hbefore Htemplate.
      rewrite (Hevents 5%nat); [unfold run_pipeline, branch_name; reflexivity|lia|exact Hbefore|].
      rewrite Htemplate. reflexivity.
    + intros _ Hbefore Htemplate.
      rewrite (Hevents 6%nat); [unfold run_pipeline, branch_name; reflexivity|lia|exact Hbefore|].
      rewrite Htemplate. reflexivity.
  - assert (Hno : ¬ needs_remediation w tr).
    { intros (_ & Hok & _). exact (Hbad Hok). }
    exists [], [], []. rewrite (main_ill_formed tr Hexists Hbad), app_nil_r.
    split; [reflexivity|]. split; [apply prefix_nil|]. split; [exact Hnone|].
    split; [|split]; intros Hyes; destruct (Hno Hyes).
Qed.

End Workflow.

(** *** Sample runs *)

Lemma sample_needs_remediation (template : bool) (fails : list pystr → bool) :
  needs_remediation (world_with [sample_medium; sample_critical] template fails) [].
Proof.
  unfold needs_remediation.
  replace (findings_on_disk (world_with [sample_medium; sample_critical] template fails) [])
    with [sample_medium; sample_critical] by (vm_compute; reflexivity).
  split; [vm_compute; reflexivity|]. split; [repeat constructor|].
  exists sample_critical. split; [rewrite !elem_of_cons; auto|].
  left. vm_compute. reflexivity.
Qed.

Lemma sample_nothing_to_remediate :
  nothing_to_remediate (world_with [sample_medium; sample_low] true no_failure) [].
Proof.
  right.
  replace (findings_on_disk (world_with [sample_medium; sample_low] true no_failure) [])
    with [sample_medium; sample_low] by (vm_compute; reflexivity).
  split; [repeat constructor|].
  intros f Hin. rewrite !elem_of_cons, elem_of_nil in Hin.
  destruct Hin as [->|[->|[]]]; split; intros Hl; vm_compute in Hl; discriminate Hl.
Qed.

(** C7, counterexample. The findings [{"severity": 5}] and
    [{"severity": "medium"}] contain no CRITICAL and no HIGH finding, yet
    [main] does not return 0: it ends with an [AttributeError]. *)
Lemma main_raises_without_critical_or_high :
  path_exists (world_with [sample_numeric; sample_medium] true no_failure) []
    results_path = true
  ∧ findings_on_disk (world_with [sample_numeric; sample_medium] true no_failure) []
    = [sample_numeric; sample_medium]
  ∧ upper (U "medium") = MEDIUM
  ∧ main (world_with [sample_numeric; sample_medium] true no_failure) id id (λ _, []) []
    = (Raise AttributeError, []).
Proof. repeat split; vm_compute; reflexivity. Qed.

Lemma main_without_critical_or_high_witness :
  (path_exists world_missing_dir [] results_path = false
   ∧ main world_missing_dir id id (λ _, []) [] = (Ret 0%Z, []))
  ∧ (Forall finding_ok
       (findings_on_disk (world_with [sample_medium; sample_low] true no_failure) [])
     ∧ (∀ f, f ∈ findings_on_disk (world_with [sample_medium; sample_low] true no_failure) [] →
             severity_label f ≠ CRITICAL ∧ severity_label f ≠ HIGH)
     ∧ main (world_with [sample_medium; sample_low] true no_failure) id id (λ _, []) [] =
         (Ret 0%Z, []))
  ∧ (path_exists (world_with [sample_numeric; sample_medium] true no_failure) []
       results_path = true
     ∧ ¬ Forall finding_ok
           (findings_on_disk (world_with [sample_numeric; sample_medium] true no_failure) [])
     ∧ main (world_with [sample_numeric; sample_medium] true no_failure) id id (λ _, []) []
       = (Raise AttributeError, [])).
Proof.
  split; [|split].
  - assert (H : path_exists world_missing_dir [] results_path = false) by reflexivity.
    split; [exact H|].
    exact (proj1 (main_without_critical_or_high world_missing_dir id id (λ _, []) []) H).
  - destruct sample_nothing_to_remediate as [H|[H1 H2]]; [discriminate H|].
    split; [exact H1|]. split; [exact H2|].
    exact (proj1 (proj2 (main_without_critical_or_high _ id id (λ _, []) [])) H1 H2).
  - assert (H1 : path_exists (world_with [sample_numeric; sample_medium] true no_failure) []
                   results_path = true) by (vm_compute; reflexivity).
    assert (H2 : ¬ Forall finding_ok
                     (findings_on_disk
                        (world_with [sample_numeric; sample_medium] true no_failure) [])).
    { replace (findings_on_disk
                 (world_with [sample_numeric; sample_medium] true no_failure) [])
        with [sample_numeric; sample_medium] by (vm_compute; reflexivity).
      intros Hall. apply Forall_cons in Hall as [Hbad _]. exact Hbad. }
    split; [exact H1|]. split; [exact H2|].
    exact (proj2 (proj2 (main_without_critical_or_high _ id id (λ _, []) [])) H1 H2).
Defined.

Lemma main_checkout_failure_uncaught_witness :
  needs_remediation (world_with [sample_medium; sample_critical] true checkout_main_fails) []
  ∧ run_process (world_with [sample_medium; sample_critical] true checkout_main_fails) []
      [U "git"; U "checkout"; U "main"] = Raise CalledProcessError
  ∧ main (world_with [sample_medium; sample_critical] true checkout_main_fails)
      id id (λ _, []) [] =
      (Raise CalledProcessError, [] ++ [checkout_main]).
Proof.
  assert (H1 := sample_needs_remediation true checkout_main_fails).
  assert (H2 : run_process (world_with [sample_medium; sample_critical] true checkout_main_fails)
                 [] [U "git"; U "checkout"; U "main"] = Raise CalledProcessError)
    by (vm_compute; reflexivity).
  split; [exact H1|]. split; [exact H2|].
  exact (main_checkout_failure_uncaught _ id id (λ _, []) [] CalledProcessError H1 H2).
Defined.

Lemma exit_status_of_run_witness :
  (needs_remediation (world_with [sample_medium; sample_critical] false no_failure) []
   ∧ base_checked_out (world_with [sample_medium; sample_critical] false no_failure)
       id id (λ _, []) [] = true
   ∧ template_present (world_with [sample_medium; sample_critical] false no_failure)
       id id (λ _, []) [] = false
   ∧ exit_status (main (world_with [sample_medium; sample_critical] false no_failure)
                    id id (λ _, []) []).1 = 1%Z)
  ∧ (needs_remediation (world_with [sample_medium; sample_critical] true no_failure) []
     ∧ base_checked_out (world_with [sample_medium; sample_critical] true no_failure)
         id id (λ _, []) [] = true
     ∧ exit_status (main (world_with [sample_medium; sample_critical] true no_failure)
                      id id (λ _, []) []).1 = 0%Z)
  ∧ (nothing_to_remediate (world_with [sample_medium; sample_low] true no_failure) []
     ∧ exit_status (main (world_with [sample_medium; sample_low] true no_failure)
                      id id (λ _, []) []).1 = 0%Z).
Proof.
  split; [|split].
  - assert (H1 := sample_needs_remediation false no_failure).
    assert (H2 : base_checked_out (world_with [sample_medium; sample_critical] false no_failure)
                   id id (λ _, []) [] = true) by (vm_compute; reflexivity).
    assert (H3 : template_present (world_with [sample_medium; sample_critical] false no_failure)
                   id id (λ _, []) [] = false) by (vm_compute; reflexivity).
    split; [exact H1|]. split; [exact H2|]. split; [exact H3|].
    exact (proj2 (proj2 (exit_status_of_run _ id id (λ _, []) [])) H1 H2 H3).
  - assert (H1 := sample_needs_remediation true no_failure).
    assert (H2 : base_checked_out (world_with [sample_medium; sample_critical] true no_failure)
                   id id (λ _, []) [] = true) by (vm_compute; reflexivity).
    split; [exact H1|]. split; [exact H2|].
    rewrite (proj1 (proj2 (exit_status_of_run _ id id (λ _, []) [])) H1 H2).
    vm_compute. reflexivity.
  - split; [exact sample_nothing_to_remediate|].
    exact (proj1 (exit_status_of_run _ id id (λ _, []) []) sample_nothing_to_remediate).
Defined.

Lemma fix_branch_name_is_constant_witness :
  needs_remediation (world_with [sample_medium; sample_critical] true no_failure) []
  ∧ base_checked_out (world_with [sample_medium; sample_critical] true no_failure)
      id id (λ _, []) [] = true
  ∧ steps_ok_before (world_with [sample_medium; sample_critical] true no_failure)
      id id (λ _, []) [] 6 = true
  ∧ template_present (world_with [sample_medium; sample_critical] true no_failure)
      id id (λ _, []) [] = true
  ∧ ∃ events title body,
      (main (world_with [sample_medium; sample_critical] true no_failure)
         id id (λ _, []) []).2 = [] ++ events
      ∧ events !! 1%nat
          = Some (checkout_fix_branch (U "security-fixes/critical-high-remediation"))
      ∧ events !! 5%nat
          = Some (push_fix_branch (U "security-fixes/critical-high-remediation"))
      ∧ events !! 6%nat
          = Some (open_pull_request (U "security-fixes/critical-high-remediation")
                    title body).
Proof.
  assert (H1 := sample_needs_remediation true no_failure).
  assert (H2 : base_checked_out (world_with [sample_medium; sample_critical] true no_failure)
                 id id (λ _, []) [] = true) by (vm_compute; reflexivity).
  assert (H3 : steps_ok_before (world_with [sample_medium; sample_critical] true no_failure)
                 id id (λ _, []) [] 6 = true) by (vm_compute; reflexivity).
  assert (H3' : steps_ok_before (world_with [sample_medium; sample_critical] true no_failure)
                  id id (λ _, []) [] 5 = true) by (vm_compute; reflexivity).
  assert (H4 : template_present (world_with [sample_medium; sample_critical] true no_failure)
                 id id (λ _, []) [] = true) by (vm_compute; reflexivity).
  split; [exact H1|]. split; [exact H2|]. split; [exact H3|]. split; [exact H4|].
  destruct (fix_branch_name_is_constant
              (world_with [sample_medium; sample_critical] true no_failure)
              id id (λ _, []) [])
    as (events & title & body & Htrace & _ & _ & Hbranch & Hpush & Hpr).
  exists events, title, body.
  split; [exact Htrace|]. split; [exact (Hbranch H1 H2)|].
  split; [exact (Hpush H1 H3' H4) | exact (Hpr H1 H3 H4)].
Defined.

(** * Further properties *)

(** ** The categorizer *)

(** X1. [categorize_findings] returns a dictionary exactly when every
    element of the list is a dict whose severity is absent or a string;
    on any other list (an element that is not a dict, such as a string
    or a number, or a severity that is not a string) it raises
    [AttributeError]. *)
Theorem categorize_findings_returns_iff (fs : list json) :
  (returns (categorize_findings fs) ↔ Forall finding_ok fs)
  ∧ (categorize_findings fs = Raise AttributeError ↔ ¬ Forall finding_ok fs).
Proof.
  split; split.
  - intros [cats Hrun]. exact (categorize_findings_returns_ok fs cats Hrun).
  - intros Hok. destruct (categorize_findings_spec fs Hok) as (cats & Hrun & _).
    exists cats. exact Hrun.
  - intros Hraise Hok. destruct (categorize_findings_spec fs Hok) as (cats & Hrun & _).
    congruence.
  - apply categorize_loop_raises.
Qed.

Lemma bucket_labels_distinct (k1 k2 : pystr) (i j : nat) :
  bucket_labels !! i = Some k1 → bucket_labels !! j = Some k2 → k1 = k2 → i = j.
Proof.
  unfold bucket_labels.
  destruct i as [|[|[|[|i]]]]; destruct j as [|[|[|[|j]]]]; simpl;
    try discriminate; try reflexivity;
    intros [= <-] [= <-] H; vm_compute in H; discriminate H.
Qed.

(** X2. The buckets and the dropped findings partition the input: the
    sizes of the four buckets and the number of dropped findings add up
    to the number of findings, so no finding is counted in two buckets. *)
Theorem categorize_findings_counts (fs : list json) :
  Forall finding_ok fs →
  ∃ cats c h m i,
    categorize_findings fs = Ret cats
    ∧ cats !! CRITICAL = Some c ∧ cats !! HIGH = Some h
    ∧ cats !! MEDIUM = Some m ∧ cats !! INFORMATIONAL = Some i
    ∧ (length c + length h + length m + length i + length (dropped fs))%nat = length fs.
Proof.
  intros Hok. destruct (categorize_findings_spec fs Hok) as (cats & Hrun & Hlook).
  exists cats, (with_label CRITICAL fs), (with_label HIGH fs), (with_label MEDIUM fs),
    (with_label INFORMATIONAL fs).
  split; [exact Hrun|].
  rewrite !Hlook.
  rewrite !decide_True by (unfold bucket_labels; rewrite !elem_of_cons; auto 6).
  do 4 (split; [reflexivity|]).
  clear. induction fs as [|f fs IH]; [reflexivity|].
  rewrite !with_label_cons. unfold dropped in *. rewrite filter_cons.
  assert (Hc : CRITICAL ≠ HIGH ∧ CRITICAL ≠ MEDIUM ∧ CRITICAL ≠ INFORMATIONAL
               ∧ HIGH ≠ MEDIUM ∧ HIGH ≠ INFORMATIONAL ∧ MEDIUM ≠ INFORMATIONAL).
  { repeat split; intros H; vm_compute in H; discriminate H. }
  destruct Hc as (? & ? & ? & ? & ? & ?).
  assert (Hin : ∀ k, k ∈ bucket_labels ↔
                  k = CRITICAL ∨ k = HIGH ∨ k = MEDIUM ∨ k = INFORMATIONAL).
  { intros k. unfold bucket_labels. rewrite !elem_of_cons, elem_of_nil. tauto. }
  repeat case_decide; cbn [length]; try lia; exfalso;
    match goal with
    | H : _ ∉ bucket_labels |- _ => rewrite Hin in H
    | H : _ ∈ bucket_labels |- _ => rewrite Hin in H
    end; first [congruence | tauto].
Qed.

(** X3. Categorizing a concatenation gives, bucket by bucket, the
    concatenation of the buckets: findings gathered from several files
    can be categorized file by file or all at once. *)
Theorem categorize_findings_app (fs1 fs2 : list json) :
  Forall finding_ok fs1 → Forall finding_ok fs2 →
  ∃ cats cats1 cats2,
    categorize_findings (fs1 ++ fs2) = Ret cats
    ∧ categorize_findings fs1 = Ret cats1
    ∧ categorize_findings fs2 = Ret cats2
    ∧ ∀ label, label ∈ bucket_labels →
        ∃ b1 b2, cats1 !! label = Some b1 ∧ cats2 !! label = Some b2
                 ∧ cats !! label = Some (b1 ++ b2).
Proof.
  intros H1 H2.
  destruct (categorize_findings_spec fs1 H1) as (cats1 & Hrun1 & Hlook1).
  destruct (categorize_findings_spec fs2 H2) as (cats2 & Hrun2 & Hlook2).
  destruct (categorize_findings_spec (fs1 ++ fs2)) as (cats & Hrun & Hlook).
  { apply Forall_app. split; assumption. }
  exists cats, cats1, cats2. do 3 (split; [assumption|]).
  intros label Hlabel. exists (with_label label fs1), (with_label label fs2).
  rewrite Hlook, Hlook1, Hlook2. rewrite !decide_True by assumption.
  unfold with_label. rewrite filter_app. auto.
Qed.

Lemma categorize_findings_app_witness :
  Forall finding_ok [sample_critical; sample_low]
  ∧ Forall finding_ok [sample_medium; sample_critical]
  ∧ ∃ cats, categorize_findings ([sample_critical; sample_low]
                                   ++ [sample_medium; sample_critical]) = Ret cats
      ∧ cats !! CRITICAL = Some ([sample_critical] ++ [sample_critical]).
Proof.
  assert (H1 : Forall finding_ok [sample_critical; sample_low]) by (repeat constructor).
  assert (H2 : Forall finding_ok [sample_medium; sample_critical]) by (repeat constructor).
  split; [exact H1|]. split; [exact H2|].
  destruct (categorize_findings_app _ _ H1 H2) as (cats & cats1 & cats2 & Hrun & Hrun1 & Hrun2 & Hb).
  exists cats. split; [exact Hrun|].
  destruct (Hb CRITICAL) as (b1 & b2 & Hb1 & Hb2 & ->).
  { unfold bucket_labels. rewrite !elem_of_cons. auto. }
  destruct (categorize_findings_spec _ H1) as (c1 & Hc1 & Hl1).
  destruct (categorize_findings_spec _ H2) as (c2 & Hc2 & Hl2).
  rewrite Hrun1 in Hc1. injection Hc1 as <-. rewrite Hrun2 in Hc2. injection Hc2 as <-.
  rewrite Hl1 in Hb1. rewrite Hl2 in Hb2.
  rewrite decide_True in Hb1 by (unfold bucket_labels; rewrite !elem_of_cons; auto).
  rewrite decide_True in Hb2 by (unfold bucket_labels; rewrite !elem_of_cons; auto).
  injection Hb1 as <-. injection Hb2 as <-. reflexivity.
Defined.

(** X4. The buckets do not depend on the order of the input beyond the
    order inside each bucket: categorizing a permutation of the findings
    (the directory listing order is not fixed) gives buckets that are
    permutations of the original ones. *)
Theorem categorize_findings_permutation (fs fs' : list json) :
  fs ≡ₚ fs' → Forall finding_ok fs →
  ∃ cats cats',
    categorize_findings fs = Ret cats
    ∧ categorize_findings fs' = Ret cats'
    ∧ ∀ label, label ∈ bucket_labels →
        ∃ b b', cats !! label = Some b ∧ cats' !! label = Some b' ∧ b ≡ₚ b'.
Proof.
  intros Hperm Hok.
  assert (Hok' : Forall finding_ok fs') by (rewrite <- Hperm; exact Hok).
  destruct (categorize_findings_spec fs Hok) as (cats & Hrun & Hlook).
  destruct (categorize_findings_spec fs' Hok') as (cats' & Hrun' & Hlook').
  exists cats, cats'. do 2 (split; [assumption|]).
  intros label Hlabel. exists (with_label label fs), (with_label label fs').
  rewrite Hlook, Hlook'. rewrite !decide_True by assumption.
  split; [reflexivity|]. split; [reflexivity|].
  unfold with_label. rewrite Hperm. reflexivity.
Qed.

Lemma categorize_findings_permutation_witness :
  [sample_critical; sample_medium] ≡ₚ [sample_medium; sample_critical]
  ∧ Forall finding_ok [sample_critical; sample_medium]
  ∧ ∃ cats cats',
      categorize_findings [sample_critical; sample_medium] = Ret cats
      ∧ categorize_findings [sample_medium; sample_critical] = Ret cats'.
Proof.
  assert (H1 : [sample_critical; sample_medium] ≡ₚ [sample_medium; sample_critical])
    by apply perm_swap.
  assert (H2 : Forall finding_ok [sample_critical; sample_medium]) by (repeat constructor).
  split; [exact H1|]. split; [exact H2|].
  destruct (categorize_findings_permutation _ _ H1 H2) as (cats & cats' & Hrun & Hrun' & _).
  exists cats, cats'. split; assumption.
Defined.

Lemma categorize_findings_counts_witness :
  Forall finding_ok [sample_critical; sample_low; sample_medium]
  ∧ ∃ cats c h m i,
      categorize_findings [sample_critical; sample_low; sample_medium] = Ret cats
      ∧ cats !! CRITICAL = Some c ∧ cats !! HIGH = Some h
      ∧ cats !! MEDIUM = Some m ∧ cats !! INFORMATIONAL = Some i
      ∧ (length c + length h + length m + length i
         + length (dropped [sample_critical; sample_low; sample_medium]))%nat = 3%nat.
Proof.
  assert (H : Forall finding_ok [sample_critical; sample_low; sample_medium])
    by (repeat constructor).
  split; [exact H|]. exact (categorize_findings_counts _ H).
Defined.

(** The Unicode mapping agrees with the ASCII one on the ASCII letters. *)
Lemma upper_cp_ascii_letter (u : N) :
  (65 ≤ u ≤ 90)%N → upper_cp u = [u] ∧ upper_cp (u + 32) = [u].
Proof.
  intros Hu.
  assert (Hall : Forall (λ n, upper_cp (N.of_nat n) = [N.of_nat n]
                             ∧ upper_cp (N.of_nat n + 32) = [N.of_nat n]) (seq 65 26)).
  { repeat (constructor; [split; vm_compute; reflexivity|]). constructor. }
  rewrite Forall_forall in Hall.
  specialize (Hall (N.to_nat u)). rewrite N2Nat.id in Hall.
  apply Hall. apply elem_of_seq. lia.
Qed.

Lemma upper_same_letters (s label : pystr) :
  Forall (λ u, (65 ≤ u ≤ 90)%N) label → same_letters s label → upper s = label.
Proof.
  intros Hcap Hsame. unfold upper.
  induction Hsame as [|c u s label Hc _ IH]; [reflexivity|].
  apply Forall_cons in Hcap as [Hu Hcap]. cbn [map concat].
  rewrite (IH Hcap).
  destruct (upper_cp_ascii_letter u Hu) as [Hup Hlow].
  destruct Hc as [->| ->]; [rewrite Hup | rewrite Hlow]; reflexivity.
Qed.

Lemma bucket_labels_capitals (label : pystr) :
  label ∈ bucket_labels → Forall (λ u, (65 ≤ u ≤ 90)%N) label.
Proof.
  unfold bucket_labels. rewrite !elem_of_cons, elem_of_nil.
  intros [->|[->|[->|[->|[]]]]]; vm_compute;
    repeat (constructor; [split; discriminate|]); constructor.
Qed.

(** X5. Severity matching ignores the case of ASCII letters: a finding
    whose severity spells one of the four labels, each letter in either
    case, is filed in the bucket of that label. *)
Theorem categorize_findings_ignores_ascii_case
    (fs : list json) (fields : list (pystr * json)) (s label : pystr) :
  label ∈ bucket_labels → same_letters s label →
  dict_lookup fields severity_key = Some (JStr s) →
  Forall finding_ok fs → JDict fields ∈ fs →
  ∃ cats b, categorize_findings fs = Ret cats
            ∧ cats !! label = Some b ∧ JDict fields ∈ b.
Proof.
  intros Hlabel Hsame Hsev Hok Hin.
  destruct (categorize_findings_spec fs Hok) as (cats & Hrun & Hlook).
  exists cats, (with_label label fs). split; [exact Hrun|].
  rewrite Hlook, decide_True by assumption. split; [reflexivity|].
  apply elem_of_with_label. split; [|exact Hin].
  unfold severity_label. rewrite Hsev.
  apply upper_same_letters; [apply bucket_labels_capitals|]; assumption.
Qed.

Lemma categorize_findings_ignores_ascii_case_witness :
  HIGH ∈ bucket_labels
  ∧ same_letters (U "hIgH") HIGH
  ∧ dict_lookup [(severity_key, JStr (U "hIgH"))] severity_key = Some (JStr (U "hIgH"))
  ∧ Forall finding_ok [sample_low; JDict [(severity_key, JStr (U "hIgH"))]]
  ∧ JDict [(severity_key, JStr (U "hIgH"))] ∈ [sample_low; JDict [(severity_key, JStr (U "hIgH"))]]
  ∧ ∃ cats b, categorize_findings [sample_low; JDict [(severity_key, JStr (U "hIgH"))]] = Ret cats
              ∧ cats !! HIGH = Some b ∧ JDict [(severity_key, JStr (U "hIgH"))] ∈ b.
Proof.
  assert (H1 : HIGH ∈ bucket_labels) by (unfold bucket_labels; rewrite !elem_of_cons; auto).
  assert (H2 : same_letters (U "hIgH") HIGH).
  { unfold same_letters. vm_compute.
    repeat (constructor; [first [left; reflexivity | right; reflexivity]|]). constructor. }
  assert (H3 : dict_lookup [(severity_key, JStr (U "hIgH"))] severity_key
               = Some (JStr (U "hIgH"))) by reflexivity.
  assert (H4 : Forall finding_ok [sample_low; JDict [(severity_key, JStr (U "hIgH"))]])
    by (repeat constructor).
  assert (H5 : JDict [(severity_key, JStr (U "hIgH"))]
               ∈ [sample_low; JDict [(severity_key, JStr (U "hIgH"))]])
    by (rewrite !elem_of_cons; auto).
  split; [exact H1|]. split; [exact H2|]. split; [exact H3|]. split; [exact H4|].
  split; [exact H5|].
  exact (categorize_findings_ignores_ascii_case _ _ _ _ H1 H2 H3 H4 H5).
Defined.

(** ** The loader *)

Lemma load_file_well_formed (w : World) (tr : trace) (dir name : pystr) :
  entry_well_formed w tr dir name →
  load_file w tr dir name [] = Ret (detections w tr dir name).
Proof.
  unfold entry_well_formed, load_file, detections.
  intros [Hext|(fields & Hload & Hkey)].
  - rewrite Hext. reflexivity.
  - destruct (endswith name (U ".json")); [|reflexivity].
    rewrite Hload. cbn.
    destruct Hkey as [Hnone|[items Hsome]].
    + rewrite Hnone. reflexivity.
    + rewrite Hsome. reflexivity.
Qed.

(** X6. When every entry of the results directory is well formed, the
    loader returns the detections of the [.json] files, file after file
    in the order of the directory listing and, inside a file, in the
    order of its array; it performs no action. *)
Theorem load_security_findings_all_entries
    (w : World) (tr : trace) (dir : pystr) (names : list pystr) :
  listdir w tr dir = Ret names →
  Forall (entry_well_formed w tr dir) names →
  load_security_findings w dir tr =
    (Ret (concat (map (detections w tr dir) names)), tr).
Proof.
  intros Hls Hwf. unfold load_security_findings. rewrite Hls.
  assert (Hret : Forall (λ name, returns (load_file w tr dir name [])) names).
  { eapply Forall_impl; [exact Hwf|]. intros name Hname.
    eexists. apply load_file_well_formed, Hname. }
  rewrite <- (app_nil_r names) at 1.
  rewrite (load_files_app w tr dir names [] [] Hret). cbn.
  assert (Hmap : map (contribution w tr dir) names = map (detections w tr dir) names).
  { apply Forall_fmap_ext_1. eapply Forall_impl; [exact Hwf|]. intros name Hname.
    unfold contribution. rewrite (load_file_well_formed w tr dir name Hname).
    reflexivity. }
  rewrite Hmap. reflexivity.
Qed.

Lemma load_security_findings_all_entries_witness :
  listdir world_two_files [] results_path = Ret [U "a.json"; U "notes.txt"; U "b.json"]
  ∧ Forall (entry_well_formed world_two_files [] results_path)
      [U "a.json"; U "notes.txt"; U "b.json"]
  ∧ concat (map (detections world_two_files [] results_path)
              [U "a.json"; U "notes.txt"; U "b.json"])
    = [sample_critical; sample_low; sample_medium]
  ∧ load_security_findings world_two_files results_path [] =
      (Ret [sample_critical; sample_low; sample_medium], []).
Proof.
  assert (H1 : listdir world_two_files [] results_path
               = Ret [U "a.json"; U "notes.txt"; U "b.json"]) by reflexivity.
  assert (H2 : Forall (entry_well_formed world_two_files [] results_path)
                 [U "a.json"; U "notes.txt"; U "b.json"]).
  { constructor; [|constructor; [|constructor; [|constructor]]].
    - right. eexists. split; [vm_compute; reflexivity|]. right. eexists.
      vm_compute. reflexivity.
    - left. vm_compute. reflexivity.
    - right. eexists. split; [vm_compute; reflexivity|]. right. eexists.
      vm_compute. reflexivity. }
  assert (H3 : concat (map (detections world_two_files [] results_path)
                         [U "a.json"; U "notes.txt"; U "b.json"])
               = [sample_critical; sample_low; sample_medium])
    by (vm_compute; reflexivity).
  split; [exact H1|]. split; [exact H2|]. split; [exact H3|].
  rewrite <- H3. exact (load_security_findings_all_entries _ _ _ _ H1 H2).
Defined.





(** ** The workflow *)

(** The answers of the world, taken in the order of the actions. *)
Ltac walk t :=
  cbn -[U app];
  first
    [ match goal with
      | |- context [path_exists ?w' t ?p] =>
          destruct (path_exists w' t p) eqn:?; walk t
      end
    | match goal with
      | |- context [run_process ?w' t ?a] =>
          destruct (run_process w' t a) as [?|[]] eqn:?; walk (t ++ [Run a])
      end
    | match goal with
      | |- context [copy_file ?w' t ?a ?b] =>
          destruct (copy_file w' t a b) as [[]|[]] eqn:?; walk (t ++ [Copy2 a b])
      end
    | idtac ].

Ltac open_script :=
  unfold remediate, create_fix_branch, apply_critical_fixes, push_branch,
    create_pull_request, try_except, bind, ret, lift, subprocess_run, shutil_copy2,
    os_path_exists, finish.

Ltac open_steps :=
  unfold first_failure, steps_ok_before, step_raises, raised, fix_steps,
    base_checked_out, branch_created, fixes_committed, template_present,
    branch_pushed, pull_request_opened, step_ok, succeeds, run_pipeline, pipeline,
    after, checkout_main, checkout_fix_branch, copy_template, stage_fix, commit_fix,
    push_fix_branch, open_pull_request.

Section WorkflowFailures.

Variable w : World.
Variables py_title py_lower : pystr → pystr.
Variable py_repr : json → pystr.

(** The run whose first failing action is the [n]-th. *)
Lemma main_first_failure (tr : trace) (n : nat) (x : exn) :
  needs_remediation w tr →
  first_failure w py_title py_lower py_repr tr n x →
  main w py_title py_lower py_repr tr =
    (failure_result n x,
     after tr (take (S n) (run_pipeline w py_title py_lower py_repr tr))).
Proof.
  intros Hneeds. rewrite (main_remediation w py_title py_lower py_repr tr Hneeds).
  destruct Hneeds as (_ & Hok & _).
  apply (critical_and_high_dicts py_title py_lower py_repr) in Hok.
  intros (Hbefore & Htemplate & Hraise). revert Hbefore Htemplate Hraise.
  open_steps. open_script.
  rewrite (generate_pr_body_returns py_title py_lower py_repr _ _ fixes_applied Hok).
  fold (pr_body py_title py_lower py_repr (critical_and_high (findings_on_disk w tr))).
  fold (pr_title (critical_and_high (findings_on_disk w tr))).
  generalize (pr_body py_title py_lower py_repr (critical_and_high (findings_on_disk w tr))).
  generalize (pr_title (critical_and_high (findings_on_disk w tr))).
  intros title body.
  destruct n as [|[|[|[|[|[|[|n]]]]]]];
    walk tr; intros Hbefore Htemplate Hraise;
    first [ discriminate Hbefore | discriminate Htemplate | discriminate Hraise
          | injection Hraise as <-; reflexivity ].
Qed.

(** X8. [main] stops at the first action that fails: the actions it has
    performed are the pipeline up to and including the failing one.
    Nothing is attempted afterwards, neither a later step nor anything
    that would undo the earlier ones. *)
Theorem main_stops_at_first_failure (tr : trace) (n : nat) (x : exn) :
  needs_remediation w tr →
  first_failure w py_title py_lower py_repr tr n x →
  (main w py_title py_lower py_repr tr).2 =
    tr ++ take (S n) (run_pipeline w py_title py_lower py_repr tr).
Proof.
  intros Hneeds Hfail. rewrite (main_first_failure tr n x Hneeds Hfail).
  apply after_app.
Qed.

(** X9. The handlers of [create_fix_branch], [push_branch] and
    [create_pull_request] name [CalledProcessError] only. When the
    command of one of them (action 1, 5 or 6 of the pipeline) fails with
    another exception, such as the [OSError] of a program that is not
    installed, the exception leaves [main]: no exit code is returned. *)
Theorem main_other_exception_uncaught (tr : trace) (n : nat) (x : exn) :
  needs_remediation w tr →
  first_failure w py_title py_lower py_repr tr n x →
  n = 1%nat ∨ n = 5%nat ∨ n = 6%nat →
  x ≠ CalledProcessError →
  (main w py_title py_lower py_repr tr).1 = Raise x.
Proof.
  intros Hneeds Hfail Hn Hx. rewrite (main_first_failure tr n x Hneeds Hfail).
  destruct Hn as [->|[->| ->]]; destruct x; try reflexivity; contradiction.
Qed.

(** X10. A failure of the copy, of [git add] or of [git commit], with
    whatever exception, and a [CalledProcessError] of the branch
    creation, of the push or of the pull-request command make [main]
    return 1. *)
Theorem main_returns_one_on_handled_failure (tr : trace) (n : nat) (x : exn) :
  needs_remediation w tr →
  first_failure w py_title py_lower py_repr tr n x →
  (2 ≤ n ≤ 4)%nat ∨ (n ≠ 0%nat ∧ x = CalledProcessError) →
  (main w py_title py_lower py_repr tr).1 = Ret 1%Z.
Proof.
  intros Hneeds Hfail Hn. rewrite (main_first_failure tr n x Hneeds Hfail).
  unfold failure_result. cbn [fst].
  destruct Hn as [Hn|[Hn ->]].
  - destruct n as [|[|[|[|[|n]]]]]; try lia; reflexivity.
  - destruct n as [|[|[|[|[|n]]]]]; try contradiction; reflexivity.
Qed.

(** The remediation path when every action succeeds. *)
Lemma main_all_steps_ok (tr : trace) :
  needs_remediation w tr →
  steps_ok_before w py_title py_lower py_repr tr 7 = true →
  template_present w py_title py_lower py_repr tr = true →
  main w py_title py_lower py_repr tr =
    (Ret 0%Z, after tr (run_pipeline w py_title py_lower py_repr tr)).
Proof.
  intros Hneeds. rewrite (main_remediation w py_title py_lower py_repr tr Hneeds).
  destruct Hneeds as (_ & Hok & _).
  apply (critical_and_high_dicts py_title py_lower py_repr) in Hok.
  open_steps. open_script.
  rewrite (generate_pr_body_returns py_title py_lower py_repr _ _ fixes_applied Hok).
  fold (pr_body py_title py_lower py_repr (critical_and_high (findings_on_disk w tr))).
  fold (pr_title (critical_and_high (findings_on_disk w tr))).
  generalize (pr_body py_title py_lower py_repr (critical_and_high (findings_on_disk w tr))).
  generalize (pr_title (critical_and_high (findings_on_disk w tr))).
  intros title body.
  walk tr; intros Hsteps Htemplate;
    first [ discriminate Hsteps | discriminate Htemplate | reflexivity ].
Qed.

(** X11. When every action succeeds, [main] returns 0 after exactly
    the seven actions of the pipeline, in order. The pull request is
    opened from the fix branch into [main] with the title
    [🔒 Fix N Critical/High Security Issues], [N] being the number of
    CRITICAL findings plus the number of HIGH findings, and with the
    body [generate_pr_body] makes of the CRITICAL findings followed by
    the HIGH ones. *)
Theorem main_success (tr : trace) :
  needs_remediation w tr →
  steps_ok_before w py_title py_lower py_repr tr 7 = true →
  template_present w py_title py_lower py_repr tr = true →
  ∃ body,
    generate_pr_body py_title py_lower py_repr (U "CRITICAL/HIGH")
      (with_label CRITICAL (findings_on_disk w tr)
         ++ with_label HIGH (findings_on_disk w tr)) fixes_applied = Ret body
    ∧ main w py_title py_lower py_repr tr =
        (Ret 0%Z,
         tr ++ [ checkout_main;
                 checkout_fix_branch branch_name;
                 copy_template; stage_fix; commit_fix;
                 push_fix_branch branch_name;
                 open_pull_request branch_name
                   (U "🔒 Fix "
                      ++ str_of_N (N.of_nat
                           (length (with_label CRITICAL (findings_on_disk w tr))
                            + length (with_label HIGH (findings_on_disk w tr))))
                      ++ U " Critical/High Security Issues")
                   body ]).
Proof.
  intros Hneeds Hsteps Htemplate.
  exists (pr_body py_title py_lower py_repr (critical_and_high (findings_on_disk w tr))).
  split.
  - apply generate_pr_body_returns.
    apply (critical_and_high_dicts py_title py_lower py_repr), Hneeds.
  - rewrite (main_all_steps_ok tr Hneeds Hsteps Htemplate), after_app.
    unfold run_pipeline, pipeline, pr_title, critical_and_high, pr_title_1, pr_title_2.
    rewrite length_app. reflexivity.
Qed.

(** X12. When the remediation template is absent, [main] returns 1
    after two actions only, the checkout of the base branch and the
    creation of the fix branch: nothing is copied, staged, committed or
    pushed, no pull request is opened, and the new branch is left in
    place. *)
Theorem main_template_absent (tr : trace) :
  needs_remediation w tr →
  steps_ok_before w py_title py_lower py_repr tr 2 = true →
  template_present w py_title py_lower py_repr tr = false →
  main w py_title py_lower py_repr tr =
    (Ret 1%Z, tr ++ [checkout_main; checkout_fix_branch branch_name]).
Proof.
  intros Hneeds. rewrite (main_remediation w py_title py_lower py_repr tr Hneeds).
  destruct Hneeds as (_ & Hok & _).
  apply (critical_and_high_dicts py_title py_lower py_repr) in Hok.
  open_steps. open_script.
  rewrite (generate_pr_body_returns py_title py_lower py_repr _ _ fixes_applied Hok).
  walk tr; intros Hsteps Htemplate;
    first [ discriminate Hsteps | discriminate Htemplate
          | rewrite <- app_assoc; reflexivity ].
Qed.

End WorkflowFailures.

(** *** Sample runs with failures *)

Lemma sample_answering_needs_remediation (template : bool)
    (failure : list pystr → option exn) :
  needs_remediation (world_answering [sample_medium; sample_critical] template failure) [].
Proof.
  unfold needs_remediation.
  replace (findings_on_disk
             (world_answering [sample_medium; sample_critical] template failure) [])
    with [sample_medium; sample_critical] by (vm_compute; reflexivity).
  split; [vm_compute; reflexivity|]. split; [repeat constructor|].
  exists sample_critical. split; [rewrite !elem_of_cons; auto|].
  left. vm_compute. reflexivity.
Qed.

Lemma sample_push_rejected :
  first_failure (world_answering [sample_medium; sample_critical] true push_rejected)
    id id (λ _, []) [] 5 CalledProcessError.
Proof. unfold first_failure. repeat split; vm_compute; reflexivity. Qed.

Lemma sample_gh_missing :
  first_failure (world_answering [sample_medium; sample_critical] true gh_missing)
    id id (λ _, []) [] 6 OSError.
Proof. unfold first_failure. repeat split; vm_compute; reflexivity. Qed.

Lemma main_stops_at_first_failure_witness :
  needs_remediation (world_answering [sample_medium; sample_critical] true push_rejected) []
  ∧ first_failure (world_answering [sample_medium; sample_critical] true push_rejected)
      id id (λ _, []) [] 5 CalledProcessError
  ∧ (main (world_answering [sample_medium; sample_critical] true push_rejected)
       id id (λ _, []) []).2 =
      [] ++ take 6 (run_pipeline
                      (world_answering [sample_medium; sample_critical] true push_rejected)
                      id id (λ _, []) []).
Proof.
  split; [apply sample_answering_needs_remediation|]. split; [exact sample_push_rejected|].
  exact (main_stops_at_first_failure _ id id (λ _, []) [] 5 CalledProcessError
           (sample_answering_needs_remediation true push_rejected) sample_push_rejected).
Defined.

Lemma main_other_exception_uncaught_witness :
  needs_remediation (world_answering [sample_medium; sample_critical] true gh_missing) []
  ∧ first_failure (world_answering [sample_medium; sample_critical] true gh_missing)
      id id (λ _, []) [] 6 OSError
  ∧ (6 = 1 ∨ 6 = 5 ∨ 6 = 6)%nat
  ∧ OSError ≠ CalledProcessError
  ∧ (main (world_answering [sample_medium; sample_critical] true gh_missing)
       id id (λ _, []) []).1 = Raise OSError.
Proof.
  assert (H3 : (6 = 1 ∨ 6 = 5 ∨ 6 = 6)%nat) by auto.
  assert (H4 : OSError ≠ CalledProcessError) by discriminate.
  split; [apply sample_answering_needs_remediation|]. split; [exact sample_gh_missing|].
  split; [exact H3|]. split; [exact H4|].
  exact (main_other_exception_uncaught _ id id (λ _, []) [] 6 OSError
           (sample_answering_needs_remediation true gh_missing) sample_gh_missing H3 H4).
Defined.

Lemma main_returns_one_on_handled_failure_witness :
  needs_remediation (world_answering [sample_medium; sample_critical] true push_rejected) []
  ∧ first_failure (world_answering [sample_medium; sample_critical] true push_rejected)
      id id (λ _, []) [] 5 CalledProcessError
  ∧ ((2 ≤ 5 ≤ 4)%nat ∨ (5%nat ≠ 0%nat ∧ CalledProcessError = CalledProcessError))
  ∧ (main (world_answering [sample_medium; sample_critical] true push_rejected)
       id id (λ _, []) []).1 = Ret 1%Z.
Proof.
  assert (H3 : (2 ≤ 5 ≤ 4)%nat ∨ (5%nat ≠ 0%nat ∧ CalledProcessError = CalledProcessError))
    by (right; split; [discriminate | reflexivity]).
  split; [apply sample_answering_needs_remediation|]. split; [exact sample_push_rejected|].
  split; [exact H3|].
  exact (main_returns_one_on_handled_failure _ id id (λ _, []) [] 5 CalledProcessError
           (sample_answering_needs_remediation true push_rejected) sample_push_rejected H3).
Defined.

Lemma main_success_witness :
  needs_remediation (world_answering [sample_medium; sample_critical] true no_exception) []
  ∧ steps_ok_before (world_answering [sample_medium; sample_critical] true no_exception)
      id id (λ _, []) [] 7 = true
  ∧ template_present (world_answering [sample_medium; sample_critical] true no_exception)
      id id (λ _, []) [] = true
  ∧ ∃ body,
      main (world_answering [sample_medium; sample_critical] true no_exception)
        id id (λ _, []) [] =
        (Ret 0%Z,
         [ checkout_main; checkout_fix_branch branch_name; copy_template; stage_fix;
           commit_fix; push_fix_branch branch_name;
           open_pull_request branch_name (U "🔒 Fix 1 Critical/High Security Issues") body ]).
Proof.
  assert (H1 := sample_answering_needs_remediation true no_exception).
  assert (H2 : steps_ok_before
                 (world_answering [sample_medium; sample_critical] true no_exception)
                 id id (λ _, []) [] 7 = true) by (vm_compute; reflexivity).
  assert (H3 : template_present
                 (world_answering [sample_medium; sample_critical] true no_exception)
                 id id (λ _, []) [] = true) by (vm_compute; reflexivity).
  split; [exact H1|]. split; [exact H2|]. split; [exact H3|].
  destruct (main_success _ id id (λ _, []) [] H1 H2 H3) as (body & _ & Hmain).
  exists body. rewrite Hmain. vm_compute. reflexivity.
Defined.

Lemma main_template_absent_witness :
  needs_remediation (world_answering [sample_medium; sample_critical] false no_exception) []
  ∧ steps_ok_before (world_answering [sample_medium; sample_critical] false no_exception)
      id id (λ _, []) [] 2 = true
  ∧ template_present (world_answering [sample_medium; sample_critical] false no_exception)
      id id (λ _, []) [] = false
  ∧ main (world_answering [sample_medium; sample_critical] false no_exception)
      id id (λ _, []) [] =
      (Ret 1%Z, [] ++ [checkout_main; checkout_fix_branch branch_name]).
Proof.
  assert (H1 := sample_answering_needs_remediation false no_exception).
  assert (H2 : steps_ok_before
                 (world_answering [sample_medium; sample_critical] false no_exception)
                 id id (λ _, []) [] 2 = true) by (vm_compute; reflexivity).
  assert (H3 : template_present
                 (world_answering [sample_medium; sample_critical] false no_exception)
                 id id (λ _, []) [] = false) by (vm_compute; reflexivity).
  split; [exact H1|]. split; [exact H2|]. split; [exact H3|].
  exact (main_template_absent _ id id (λ _, []) [] H1 H2 H3).
Defined.

Section WorkflowResults.

Variable w : World.
Variables py_title py_lower : pystr → pystr.
Variable py_repr : json → pystr.

(** X13. [apply_critical_fixes] never raises: whatever goes wrong while
    the template is copied, staged or committed, it returns [False]. It
    returns [True] exactly when the template exists and the copy,
    [git add] and [git commit] all succeed. Its actions are the copy,
    the staging and the commit, in this order, up to the first failure;
    when the template does not exist it does nothing at all. *)
Theorem apply_critical_fixes_result (tr : trace) :
  ∃ events,
    apply_critical_fixes w tr =
      (Ret (path_exists w tr secure_template
            && step_ok w tr fix_steps 0 && step_ok w tr fix_steps 1
            && step_ok w tr fix_steps 2),
       tr ++ events)
    ∧ events `prefix_of` fix_steps
    ∧ (path_exists w tr secure_template = false → events = [])
    ∧ (path_exists w tr secure_template
       && step_ok w tr fix_steps 0 && step_ok w tr fix_steps 1
       && step_ok w tr fix_steps 2 = true → events = fix_steps).
Proof.
  assert (H : ∃ n, apply_critical_fixes w tr =
      (Ret (path_exists w tr secure_template
            && step_ok w tr fix_steps 0 && step_ok w tr fix_steps 1
            && step_ok w tr fix_steps 2),
       after tr (take n fix_steps))
      ∧ (path_exists w tr secure_template = false → n = 0%nat)
      ∧ (path_exists w tr secure_template
         && step_ok w tr fix_steps 0 && step_ok w tr fix_steps 1
         && step_ok w tr fix_steps 2 = true → n = 3%nat)).
  { unfold apply_critical_fixes, try_except, bind, ret, subprocess_run, shutil_copy2,
      os_path_exists, step_ok, succeeds, fix_steps, after, copy_template, stage_fix,
      commit_fix.
    walk tr;
      first [ exists 0%nat; repeat split; (reflexivity || discriminate)
            | exists 1%nat; repeat split; (reflexivity || discriminate)
            | exists 2%nat; repeat split; (reflexivity || discriminate)
            | exists 3%nat; repeat split; (reflexivity || discriminate) ]. }
  destruct H as (n & Hrun & Habsent & Hall).
  exists (take n fix_steps). rewrite Hrun, after_app.
  split; [reflexivity|]. split; [apply prefix_take|]. split.
  - intros Hno. rewrite (Habsent Hno). reflexivity.
  - intros Hyes. rewrite (Hall Hyes). reflexivity.
Qed.

(** How the remediation path can end. *)
Lemma remediate_ends (tr : trace) :
  Forall finding_ok (findings_on_disk w tr) →
  (∃ e, (finish (remediate w py_title py_lower py_repr
                   (critical_and_high (findings_on_disk w tr)) tr)).1 = Raise e)
  ∨ (finish (remediate w py_title py_lower py_repr
               (critical_and_high (findings_on_disk w tr)) tr)).1 = Ret 1%Z
  ∨ finish (remediate w py_title py_lower py_repr
              (critical_and_high (findings_on_disk w tr)) tr) =
      (Ret 0%Z, after tr (run_pipeline w py_title py_lower py_repr tr)).
Proof.
  intros Hok. apply (critical_and_high_dicts py_title py_lower py_repr) in Hok.
  unfold run_pipeline, pipeline, after, checkout_main, checkout_fix_branch, copy_template,
    stage_fix, commit_fix, push_fix_branch, open_pull_request.
  unfold remediate, create_fix_branch, apply_critical_fixes, push_branch,
    create_pull_request, try_except, bind, ret, lift, subprocess_run, shutil_copy2,
    os_path_exists, finish.
  rewrite (generate_pr_body_returns py_title py_lower py_repr _ _ fixes_applied Hok).
  fold (pr_body py_title py_lower py_repr (critical_and_high (findings_on_disk w tr))).
  fold (pr_title (critical_and_high (findings_on_disk w tr))).
  generalize (pr_body py_title py_lower py_repr (critical_and_high (findings_on_disk w tr))).
  generalize (pr_title (critical_and_high (findings_on_disk w tr))).
  intros title body.
  walk tr;
    first [ left; eexists; reflexivity
          | right; left; reflexivity
          | right; right; reflexivity ].
Qed.

(** X14. [main] returns no other code than 0 and 1, and it returns 0 in
    two situations only: without having done anything, or after the
    whole pipeline, pull request included. It never reports success
    after a partial remediation. *)
Theorem main_results (tr : trace) :
  (∃ e, (main w py_title py_lower py_repr tr).1 = Raise e)
  ∨ (main w py_title py_lower py_repr tr).1 = Ret 1%Z
  ∨ main w py_title py_lower py_repr tr = (Ret 0%Z, tr)
  ∨ main w py_title py_lower py_repr tr =
      (Ret 0%Z, tr ++ run_pipeline w py_title py_lower py_repr tr).
Proof.
  destruct (run_kinds w py_title py_lower py_repr tr) as [Hnoop|[Hneeds|[Hexists Hbad]]].
  - right. right. left. apply main_noop, Hnoop.
  - rewrite (main_remediation w py_title py_lower py_repr tr Hneeds).
    destruct (remediate_ends tr) as [Hraise|[Hone|Hzero]]; [apply Hneeds| | |].
    + left. exact Hraise.
    + right. left. exact Hone.
    + right. right. right. rewrite Hzero, after_app. reflexivity.
  - left. exists AttributeError.
    rewrite (main_ill_formed w py_title py_lower py_repr tr Hexists Hbad). reflexivity.
Qed.

(** X15. When the results directory exists and one of the loaded
    elements is not a finding the categorizer can file (it is not a
    dict, or its severity is not a string), [main] ends with an uncaught
    [AttributeError] before any action: the other findings, even
    CRITICAL ones, are not remediated. *)
Theorem main_ill_formed_finding (tr : trace) (f : json) :
  path_exists w tr results_path = true →
  f ∈ findings_on_disk w tr → ¬ finding_ok f →
  main w py_title py_lower py_repr tr = (Raise AttributeError, tr).
Proof.
  intros Hexists Hin Hbad. apply main_ill_formed; [exact Hexists|].
  intros Hall. rewrite Forall_forall in Hall. exact (Hbad (Hall f Hin)).
Qed.

End WorkflowResults.

Lemma main_ill_formed_finding_witness :
  path_exists (world_with [sample_critical; sample_numeric] true no_failure) []
    results_path = true
  ∧ sample_numeric
      ∈ findings_on_disk (world_with [sample_critical; sample_numeric] true no_failure) []
  ∧ ¬ finding_ok sample_numeric
  ∧ main (world_with [sample_critical; sample_numeric] true no_failure) id id (λ _, []) []
    = (Raise AttributeError, []).
Proof.
  assert (H1 : path_exists (world_with [sample_critical; sample_numeric] true no_failure) []
                 results_path = true) by (vm_compute; reflexivity).
  assert (H2 : sample_numeric
               ∈ findings_on_disk
                   (world_with [sample_critical; sample_numeric] true no_failure) []).
  { replace (findings_on_disk
               (world_with [sample_critical; sample_numeric] true no_failure) [])
      with [sample_critical; sample_numeric] by (vm_compute; reflexivity).
    rewrite !elem_of_cons. auto. }
  assert (H3 : ¬ finding_ok sample_numeric) by (intros H; exact H).
  split; [exact H1|]. split; [exact H2|]. split; [exact H3|].
  exact (main_ill_formed_finding _ id id (λ _, []) [] sample_numeric H1 H2 H3).
Defined.

(** ** The pull-request description *)

Section BodyEdges.

Variables py_title py_lower : pystr → pystr.
Variable py_repr : json → pystr.

#[local] Instance is_dict_dec (v : json) : Decision (is_dict v).
Proof. destruct v; simpl; first [left; exact I | right; intros []]. Defined.

Lemma findings_loop_raises (fs : list json) (i : N) (body : pystr) :
  ¬ Forall is_dict fs → findings_loop py_repr i fs body = Raise AttributeError.
Proof.
  revert i body. induction fs as [|f fs IH]; intros i body Hbad.
  - destruct Hbad. constructor.
  - cbn [findings_loop]. destruct (decide (is_dict f)) as [Hf|Hf].
    + destruct f; try (destruct Hf; fail). cbn.
      apply IH. intros Hall. apply Hbad. constructor; [exact I | exact Hall].
    + destruct f; try reflexivity. destruct Hf. exact I.
Qed.

(** X16. [generate_pr_body] returns a body exactly when every finding is
    a dict; a finding of any other kind makes it raise
    [AttributeError], whatever the severity and the fixes. *)
Theorem generate_pr_body_returns_iff
    (severity : pystr) (findings : list json) (fixes : list pystr) :
  (returns (generate_pr_body py_title py_lower py_repr severity findings fixes)
     ↔ Forall is_dict findings)
  ∧ (generate_pr_body py_title py_lower py_repr severity findings fixes
       = Raise AttributeError ↔ ¬ Forall is_dict findings).
Proof.
  assert (Hbad : ¬ Forall is_dict findings →
                 generate_pr_body py_title py_lower py_repr severity findings fixes
                   = Raise AttributeError).
  { intros H. unfold generate_pr_body. rewrite (findings_loop_raises _ _ _ H). reflexivity. }
  assert (Hgood : Forall is_dict findings →
                  returns (generate_pr_body py_title py_lower py_repr severity findings fixes)).
  { intros H. eexists. apply generate_pr_body_returns, H. }
  split; split.
  - intros [body Hrun]. destruct (decide (Forall is_dict findings)) as [H|H]; [exact H|].
    rewrite (Hbad H) in Hrun. discriminate.
  - exact Hgood.
  - intros Hraise Hall. destruct (Hgood Hall) as [body Hrun]. congruence.
  - exact Hbad.
Qed.

(** X17. The numbering runs through a concatenated list: the findings of
    the second list are numbered after those of the first. [main] passes
    the CRITICAL findings followed by the HIGH ones, so the HIGH findings
    come last in the description. *)
Theorem generate_pr_body_app
    (severity : pystr) (xs ys : list json) (fixes : list pystr) :
  Forall is_dict xs → Forall is_dict ys →
  generate_pr_body py_title py_lower py_repr severity (xs ++ ys) fixes =
    Ret (body_head py_title py_lower severity (length xs + length ys)
           ++ concat (imap (λ i f, numbered_entry py_repr (S i) f) xs)
           ++ concat (imap (λ i f, numbered_entry py_repr (length xs + S i) f) ys)
           ++ fixes_heading
           ++ concat (map fix_line fixes)
           ++ body_tail).
Proof.
  intros Hxs Hys. unfold generate_pr_body.
  rewrite (findings_loop_entries py_repr (xs ++ ys) 1 _).
  2: { apply Forall_app. split; assumption. }
  cbn [mbind outcome_bind].
  rewrite fixes_loop_bullets, imap_app, concat_app, length_app, <- !app_assoc.
  do 3 f_equal. f_equal. f_equal.
  apply imap_ext. intros i f _. cbn. f_equal. lia.
Qed.

(** X18. The icon of the heading is looked up by the exact severity
    string. For a severity that is not literally one of the four labels
    (another case, or the [CRITICAL/HIGH] that [main] passes) the heading
    carries the fallback icon. *)
Theorem generate_pr_body_fallback_icon
    (severity : pystr) (findings : list json) (fixes : list pystr) :
  severity ∉ bucket_labels → Forall is_dict findings →
  ∃ rest,
    generate_pr_body py_title py_lower py_repr severity findings fixes =
      Ret (U "## 🔧 Security Remediation: " ++ py_title severity ++ rest).
Proof.
  intros Hsev Hfs.
  assert (Hicon : severity_icons !! severity = None).
  { unfold severity_icons. apply not_elem_of_list_to_map_1. cbn [fmap list_fmap fst].
    unfold bucket_labels, CRITICAL, HIGH, MEDIUM, INFORMATIONAL in Hsev. exact Hsev. }
  unfold generate_pr_body.
  rewrite (findings_loop_entries py_repr findings 1 _ Hfs). cbn [mbind outcome_bind].
  unfold body_head. rewrite Hicon. cbn [default from_option id].
  replace (U "## 🔧 Security Remediation: ")
    with (body_head_1 ++ U "🔧" ++ body_head_2) by (vm_compute; reflexivity).
  eexists. rewrite fixes_loop_bullets, <- !app_assoc. reflexivity.
Qed.

End BodyEdges.

Lemma generate_pr_body_app_witness :
  Forall is_dict [sample_critical] ∧ Forall is_dict [sample_unlabelled]
  ∧ generate_pr_body id id (λ _, []) CRITICAL ([sample_critical] ++ [sample_unlabelled])
      [U "Block public access"] =
    Ret (body_head id id CRITICAL 2
           ++ (U "1. **S3 bucket is public**: Security issue detected" ++ [10])
           ++ (U "2. **Logging disabled**: Security issue detected" ++ [10])
           ++ fixes_heading
           ++ (U "- Block public access" ++ [10])
           ++ body_tail).
Proof.
  assert (H1 : Forall is_dict [sample_critical]) by (repeat constructor).
  assert (H2 : Forall is_dict [sample_unlabelled]) by (repeat constructor).
  split; [exact H1|]. split; [exact H2|].
  rewrite (generate_pr_body_app id id (λ _, []) CRITICAL _ _ [U "Block public access"] H1 H2).
  vm_compute. reflexivity.
Defined.

Lemma generate_pr_body_fallback_icon_witness :
  (U "CRITICAL/HIGH" ∉ bucket_labels)
  ∧ Forall is_dict [sample_critical]
  ∧ ∃ rest,
      generate_pr_body id id (λ _, []) (U "CRITICAL/HIGH") [sample_critical] fixes_applied =
        Ret (U "## 🔧 Security Remediation: " ++ id (U "CRITICAL/HIGH") ++ rest).
Proof.
  assert (H1 : U "CRITICAL/HIGH" ∉ bucket_labels).
  { unfold bucket_labels. rewrite !elem_of_cons, elem_of_nil.
    intros [H|[H|[H|[H|[]]]]]; vm_compute in H; discriminate H. }
  assert (H2 : Forall is_dict [sample_critical]) by (repeat constructor).
  split; [exact H1|]. split; [exact H2|].
  exact (generate_pr_body_fallback_icon id id (λ _, []) _ _ fixes_applied H1 H2).
Defined.

(** ** Which directory entries are read *)

(** The loader reads an entry exactly when [.json] is a suffix of its
    name: the name [.json] itself passes, a name in another case, such
    as [REPORT.JSON], does not. *)
Lemma endswith_json_suffix (name : pystr) :
  endswith name (U ".json") = true ↔ U ".json" `suffix_of` name.
Proof.
  unfold endswith. rewrite bool_decide_eq_true. split.
  - intros Hdrop. exists (take (length name - length (U ".json")) name).
    rewrite <- Hdrop at 2. symmetry. apply take_drop.
  - intros [p ->]. rewrite length_app.
    replace (length p + length (U ".json") - length (U ".json"))%nat with (length p) by lia.
    apply drop_app_length.
Qed.

Example endswith_json_only_name : endswith (U ".json") (U ".json") = true.
Proof. vm_compute. reflexivity. Qed.

Example endswith_json_upper_case : endswith (U "REPORT.JSON") (U ".json") = false.
Proof. vm_compute. reflexivity. Qed.
